(** * whisper-stream-web: segmentation and dispatch of live audio

    A shallow embedding of the three React components of the repository

    - [RealTimeTranscriptionVAD] (src/RealTimeTranscriptionVAD.tsx, first part),
    - [AudioTranscription]       (src/RealTimeTranscriptionVAD.tsx, second part),
    - [TranscriptionApp]         (temp/live-whisper/src/TranscriptionApp.tsx),

    and of the properties the specification states about the
    segmentation-and-dispatch pipeline.

    Modelling conventions.

    - React state and refs are fields of a record; a handler is a function
      from record to record.  A functional update [setX (prev => f prev)]
      is the application of [f] to the field.
    - An [async] handler is split at its [await]: the part before the
      request is issued, and the continuation that runs when the request
      settles.  The requests that are in flight are kept next to the
      component state, so that any order of settlement can be replayed.
    - JavaScript numbers are IEEE 754 doubles: the kernel's primitive
      floats.  Time stamps ([Date.now()]) are integers and are kept in [Z].
    - Browser objects ([MediaRecorder], [AudioContext], [AnalyserNode],
      timers) are small records with the transitions the W3C
      specifications give them.
    - A component is followed handler by handler ([step], [run]), which
      includes calls of the silence detectors; the runs of a page are the
      traces of the events the page itself brings about ([run_page]). *)

From Stdlib Require Import ZArith String List Bool Lia.
From Stdlib Require Import Sorting.Sorted.
From Stdlib Require DecimalString.
From Stdlib Require Import Floats.
From Stdlib Require Numbers.Cyclic.Int63.Uint63.
Import ListNotations.

Local Open Scope string_scope.
Local Open Scope Z_scope.
Local Open Scope list_scope.

(* ================================================================= *)
(** * Part I: the embedding *)
(* ================================================================= *)

(** ** JavaScript values and the [Math] object *)

Module Js.

(** What a property access such as [data.text] can yield on a decoded
    JSON body: the property is absent, or it is a string. *)
Inductive value : Type :=
| undefined
| str (s : string).

(** [if (v)] on such a value: [undefined] and the empty string are falsy. *)
Definition truthy (v : value) : bool :=
  match v with
  | undefined => false
  | str s => negb (s =? "")%string
  end.

(** [prev + " " + v] on a string [prev]. *)
Definition concat_text (prev : string) (v : value) : string :=
  match v with
  | undefined => (prev ++ " " ++ "undefined")%string
  | str s => (prev ++ " " ++ s)%string
  end.

(** [!r.current] for a ref holding [number | null]: [null] and [0] are falsy. *)
Definition falsy_number (r : option Z) : bool :=
  match r with
  | None => true
  | Some t => (t =? 0)%Z
  end.

(** ECMAScript leaves [Math.log10] implementation-approximated and fixes
    its value only at a few arguments (ECMA-262, Math.log10).  The
    components are therefore modelled over any implementation that
    respects those fixed values. *)
Class Math : Type := {
  Math_log10 : float -> float;
  log10_nan : Math_log10 nan = nan;
  log10_negative : forall x, (x <? 0)%float = true -> Math_log10 x = nan;
  log10_zero : forall x, (x =? 0)%float = true -> Math_log10 x = neg_infinity;
  log10_one : Math_log10 1%float = 0%float;
  log10_infinity : Math_log10 infinity = infinity
}.

(** One such implementation, used to run the components on concrete
    frames: the argument is split into mantissa and exponent and the
    logarithm of the mantissa is summed from the series of [atanh]. *)
Fixpoint atanh_series (n : nat) (z2 term k acc : float) : float :=
  match n with
  | O => acc
  | S n' => atanh_series n' z2 (term * z2)%float (k + 2)%float (acc + term / k)%float
  end.

Definition ln (x : float) : float :=
  let (m, e) := frshiftexp x in
  let z := ((m - 1) / (m + 1))%float in
  ((of_uint63 e - 2101) * 0x1.62e42fefa39efp-1
   + 2 * atanh_series 40 (z * z) z 1 0)%float.

Definition log10_reference (x : float) : float :=
  if (x =? 0)%float then neg_infinity
  else if (x <? 0)%float then nan
  else if is_nan x then nan
  else if (x =? infinity)%float then infinity
  else if (x =? 1)%float then 0%float
  else (ln x / 0x1.26bb1bbb55516p+1)%float.

End Js.

(** ** Browser objects *)

(** A [Blob] is its bytes; [new Blob(parts)] concatenates the parts. *)
Definition Blob : Type := list Byte.byte.

Definition new_Blob (parts : list Blob) : Blob := List.concat parts.

Definition Blob_size (b : Blob) : nat := List.length b.

(** An [ArrayBuffer] is its bytes as well. *)
Definition ArrayBuffer : Type := list Byte.byte.

(** The multipart form every component posts to the transcription service. *)
Record FormData : Type := {
  form_file : list Byte.byte;
  form_model : string;
  form_language : string;
  form_response_format : string
}.

Definition transcription_form (file : list Byte.byte) : FormData :=
  {| form_file := file;
     form_model := "adminbr/whisper-small-pt-ct2";
     form_language := "pt";
     form_response_format := "json" |}.

Module MediaRecorder.

Inductive RecordingState : Type := inactive | recording | paused.

(** A recorder: its [state] attribute, whether its stream still has a live
    track ([stream.active]), and whether a [stop()] has inactivated it
    without the queued [dataavailable] and [stop] events having been
    dispatched yet. *)
Record t : Type := {
  state : RecordingState;
  stream_active : bool;
  stop_queued : bool
}.

(** [new MediaRecorder(stream)] on a fresh stream. *)
Definition create : t :=
  {| state := inactive; stream_active := true; stop_queued := false |}.

Definition is_inactive (r : t) : bool :=
  match state r with
  | inactive => true
  | _ => false
  end.

(** [start()]: throws (here [None]) unless the recorder is inactive and its
    stream is active; otherwise the recorder is recording. *)
Definition start (r : t) : option t :=
  if is_inactive r && stream_active r
  then Some {| state := recording; stream_active := stream_active r;
               stop_queued := stop_queued r |}
  else None.

(** [stop()]: nothing on an inactive recorder; otherwise the recorder
    becomes inactive and a task is queued that fires [dataavailable]
    with the data gathered so far, then [stop]. *)
Definition stop (r : t) : t :=
  if is_inactive r then r
  else {| state := inactive; stream_active := stream_active r;
          stop_queued := true |}.

(** [stream.getTracks().forEach(track => track.stop())]. *)
Definition stop_tracks (r : t) : t :=
  {| state := state r; stream_active := false; stop_queued := stop_queued r |}.

(** The queued events have been dispatched. *)
Definition dispatched (r : t) : t :=
  {| state := state r; stream_active := stream_active r; stop_queued := false |}.

End MediaRecorder.

Module AudioContext.

Inductive t : Type := running | closed.

Definition close (c : t) : t := closed.

End AudioContext.

Module AnalyserNode.

Record t : Type := { fftSize : nat }.

(** [createAnalyser()]: the default [fftSize] is 2048. *)
Definition create : t := {| fftSize := 2048 |}.

Definition frequencyBinCount (a : t) : nat := Nat.div2 (fftSize a).

(** [getFloatTimeDomainData(array)]: the most recent [fftSize] samples of
    the signal are copied into [array]; samples that do not fit are
    dropped, and elements of [array] beyond [fftSize] are left as they were. *)
Definition getFloatTimeDomainData (a : t) (signal array : list float) : list float :=
  let n := Nat.min (fftSize a) (length array) in
  let w := firstn n signal in
  w ++ skipn (length w) array.

End AnalyserNode.

(** [new Float32Array(n)]: [n] zeros. *)
Definition new_Float32Array (n : nat) : list float := repeat 0%float n.

(** The length of an array as a JavaScript number. *)
Definition length_number {A : Type} (l : list A) : float :=
  of_uint63 (Uint63.of_Z (Z.of_nat (length l))).

(** Root mean square of a frame, as both components compute it: the sum of
    the squares from left to right starting at [0], divided by the length,
    under [Math.sqrt]. *)
Definition sum_squares (frame : list float) : float :=
  fold_left (fun sum val => (sum + val * val)%float) frame 0%float.

Definition rms (frame : list float) : float :=
  PrimFloat.sqrt (sum_squares frame / length_number frame)%float.

(** [20 * Math.log10(rms)]: the level of a frame in decibels. *)
Definition level `{Js.Math} (rms : float) : float :=
  (20 * Js.Math_log10 rms)%float.

Definition decibels `{Js.Math} (frame : list float) : float :=
  level (rms frame).

(** What a transcription request can come back with. *)
Inductive Body : Type :=
| Unparseable (message : string)   (* [response.json()] rejects with this error *)
| Json (text : Js.value).          (* a JSON object; [text] is its [text] property *)

Inductive Reply : Type :=
| NetworkError (message : string)             (* the request promise rejects *)
| Response (status : Z) (body : Body).        (* an HTTP response *)

(** [response.ok]: the status is in the range 200-299. *)
Definition response_ok (status : Z) : bool :=
  (200 <=? status) && (status <=? 299).

(** A request fails, in the words of the specification (section 4.3), on a
    network error, a non-success status, or a malformed response body. *)
Definition failed (r : Reply) : bool :=
  match r with
  | NetworkError _ => true
  | Response status body =>
      negb (response_ok status)
      || match body with
         | Unparseable _ => true
         | Json _ => false
         end
  end.

(* ----------------------------------------------------------------- *)
(** ** RealTimeTranscriptionVAD (src/RealTimeTranscriptionVAD.tsx, lines 1-111) *)

Module RealTimeTranscriptionVAD.

(** [useState<string[]>([])] twice. *)
Record State : Type := {
  audioList : list string;
  transcription : list Js.value
}.

Definition initial : State := {| audioList := []; transcription := [] |}.

(** [axios.post] rejects on a network error and on a status outside
    200-299; otherwise it resolves with the decoded body as
    [response.data], and [response.data.text] is the [text] property of a
    JSON object, or [undefined] when the body did not decode to one. *)
Definition axios_post (r : Reply) : option Js.value :=
  match r with
  | NetworkError _ => None
  | Response status body =>
      if response_ok status
      then Some match body with
                | Json text => text
                | Unparseable _ => Js.undefined
                end
      else None
  end.

(** [sendAudioForTranscription], up to the [await]: the form that is posted. *)
Definition sendAudioForTranscription_request (audioBuffer : ArrayBuffer) : FormData :=
  transcription_form audioBuffer.

(** [sendAudioForTranscription], from the [await] on: the text is appended
    when the request resolves; a rejection is logged and nothing else. *)
Definition sendAudioForTranscription_settled (r : Reply) (s : State) : State :=
  match axios_post r with
  | Some text =>
      {| audioList := audioList s; transcription := transcription s ++ [text] |}
  | None => s
  end.

Section Component.

(** [utils.encodeWAV] and [utils.arrayBufferToBase64] come from the
    @ricky0123/vad-react package: the component is modelled over any two
    such functions. *)
Variable encodeWAV : list float -> ArrayBuffer.
Variable arrayBufferToBase64 : ArrayBuffer -> string.

Definition audioURL_of (audio : list float) : string :=
  ("data:audio/wav;base64," ++ arrayBufferToBase64 (encodeWAV audio))%string.

(** [onSpeechEnd], the state update: the clip goes to the front of [audioList]. *)
Definition onSpeechEnd (audio : list float) (s : State) : State :=
  {| audioList := audioURL_of audio :: audioList s;
     transcription := transcription s |}.

(** The component together with the requests that have been issued and
    have not settled yet.  A request is known by its sequence number: the
    number of requests issued before it. *)
Record World : Type := {
  react : State;
  in_flight : list (nat * FormData);
  issued : nat
}.

Definition start_world : World :=
  {| react := initial; in_flight := []; issued := 0 |}.

Inductive Event : Type :=
| SpeechEnd (audio : list float)      (* the VAD reports the end of an utterance *)
| Settled (k : nat) (r : Reply).      (* request number [k] settles with [r] *)

Definition is_request (k : nat) (p : nat * FormData) : bool := Nat.eqb (fst p) k.

(** One event.  [None]: the event cannot happen (no such request in flight). *)
Definition step (e : Event) (w : World) : option World :=
  match e with
  | SpeechEnd audio =>
      Some {| react := onSpeechEnd audio (react w);
              in_flight := in_flight w
                             ++ [(issued w, sendAudioForTranscription_request (encodeWAV audio))];
              issued := S (issued w) |}
  | Settled k r =>
      if existsb (is_request k) (in_flight w)
      then Some {| react := sendAudioForTranscription_settled r (react w);
                   in_flight := filter (fun p => negb (is_request k p)) (in_flight w);
                   issued := issued w |}
      else None
  end.

Fixpoint run (evs : list Event) (w : World) : option World :=
  match evs with
  | [] => Some w
  | e :: evs' =>
      match step e w with
      | Some w' => run evs' w'
      | None => None
      end
  end.

(** The clips of a trace, in capture order. *)
Fixpoint clips (evs : list Event) : list (list float) :=
  match evs with
  | [] => []
  | SpeechEnd audio :: evs' => audio :: clips evs'
  | Settled _ _ :: evs' => clips evs'
  end.

End Component.

(** The requests of a trace that resolved, each with its sequence number
    and text, in the order in which they completed. *)
Fixpoint completions (evs : list Event) : list (nat * Js.value) :=
  match evs with
  | [] => []
  | SpeechEnd _ :: evs' => completions evs'
  | Settled k r :: evs' =>
      match axios_post r with
      | Some text => (k, text) :: completions evs'
      | None => completions evs'
      end
  end.

(** The transcript in completion order. *)
Definition completion_order (evs : list Event) : list Js.value :=
  map snd (completions evs).

(** The transcript the specification asks for: the same entries listed by
    sequence number (the order in which the segments were captured). *)
Fixpoint insert_by_sequence (x : nat * Js.value) (l : list (nat * Js.value))
  : list (nat * Js.value) :=
  match l with
  | [] => [x]
  | y :: l' =>
      if Nat.leb (fst x) (fst y) then x :: l else y :: insert_by_sequence x l'
  end.

Definition sort_by_sequence (l : list (nat * Js.value)) : list (nat * Js.value) :=
  fold_right insert_by_sequence [] l.

Definition capture_order (evs : list Event) : list Js.value :=
  map snd (sort_by_sequence (completions evs)).

End RealTimeTranscriptionVAD.

(* ----------------------------------------------------------------- *)
(** ** TranscriptionApp (temp/live-whisper/src/TranscriptionApp.tsx) *)

Module TranscriptionApp.

Definition VAD_THRESHOLD : float := (-45)%float.
Definition SILENCE_DURATION : Z := 1000.

Inductive Status : Type := idle | recording | transcribing | error.

(** The four [useState] cells and the six refs of the component. *)
Record State : Type := {
  isRecording : bool;
  status : Status;
  transcriptions : list Js.value;
  audioChunks : list Blob;
  mediaRecorder : option MediaRecorder.t;
  audioContext : option AudioContext.t;
  analyser : option AnalyserNode.t;
  dataArray : option (list float);
  silenceStart : option Z;
  currentChunks : list Blob
}.

Definition initial : State :=
  {| isRecording := false; status := idle; transcriptions := []; audioChunks := [];
     mediaRecorder := None; audioContext := None; analyser := None;
     dataArray := None; silenceStart := None; currentChunks := [] |}.

Definition set_isRecording (v : bool) (s : State) : State :=
  {| isRecording := v; status := status s; transcriptions := transcriptions s;
     audioChunks := audioChunks s; mediaRecorder := mediaRecorder s;
     audioContext := audioContext s; analyser := analyser s;
     dataArray := dataArray s; silenceStart := silenceStart s;
     currentChunks := currentChunks s |}.

Definition set_status (v : Status) (s : State) : State :=
  {| isRecording := isRecording s; status := v; transcriptions := transcriptions s;
     audioChunks := audioChunks s; mediaRecorder := mediaRecorder s;
     audioContext := audioContext s; analyser := analyser s;
     dataArray := dataArray s; silenceStart := silenceStart s;
     currentChunks := currentChunks s |}.

Definition set_transcriptions (v : list Js.value) (s : State) : State :=
  {| isRecording := isRecording s; status := status s; transcriptions := v;
     audioChunks := audioChunks s; mediaRecorder := mediaRecorder s;
     audioContext := audioContext s; analyser := analyser s;
     dataArray := dataArray s; silenceStart := silenceStart s;
     currentChunks := currentChunks s |}.

Definition set_audioChunks (v : list Blob) (s : State) : State :=
  {| isRecording := isRecording s; status := status s; transcriptions := transcriptions s;
     audioChunks := v; mediaRecorder := mediaRecorder s;
     audioContext := audioContext s; analyser := analyser s;
     dataArray := dataArray s; silenceStart := silenceStart s;
     currentChunks := currentChunks s |}.

Definition set_mediaRecorder (v : option MediaRecorder.t) (s : State) : State :=
  {| isRecording := isRecording s; status := status s; transcriptions := transcriptions s;
     audioChunks := audioChunks s; mediaRecorder := v;
     audioContext := audioContext s; analyser := analyser s;
     dataArray := dataArray s; silenceStart := silenceStart s;
     currentChunks := currentChunks s |}.

Definition set_audioContext (v : option AudioContext.t) (s : State) : State :=
  {| isRecording := isRecording s; status := status s; transcriptions := transcriptions s;
     audioChunks := audioChunks s; mediaRecorder := mediaRecorder s;
     audioContext := v; analyser := analyser s;
     dataArray := dataArray s; silenceStart := silenceStart s;
     currentChunks := currentChunks s |}.

Definition set_analyser (v : option AnalyserNode.t) (s : State) : State :=
  {| isRecording := isRecording s; status := status s; transcriptions := transcriptions s;
     audioChunks := audioChunks s; mediaRecorder := mediaRecorder s;
     audioContext := audioContext s; analyser := v;
     dataArray := dataArray s; silenceStart := silenceStart s;
     currentChunks := currentChunks s |}.

Definition set_dataArray (v : option (list float)) (s : State) : State :=
  {| isRecording := isRecording s; status := status s; transcriptions := transcriptions s;
     audioChunks := audioChunks s; mediaRecorder := mediaRecorder s;
     audioContext := audioContext s; analyser := analyser s;
     dataArray := v; silenceStart := silenceStart s;
     currentChunks := currentChunks s |}.

Definition set_silenceStart (v : option Z) (s : State) : State :=
  {| isRecording := isRecording s; status := status s; transcriptions := transcriptions s;
     audioChunks := audioChunks s; mediaRecorder := mediaRecorder s;
     audioContext := audioContext s; analyser := analyser s;
     dataArray := dataArray s; silenceStart := v;
     currentChunks := currentChunks s |}.

Definition set_currentChunks (v : list Blob) (s : State) : State :=
  {| isRecording := isRecording s; status := status s; transcriptions := transcriptions s;
     audioChunks := audioChunks s; mediaRecorder := mediaRecorder s;
     audioContext := audioContext s; analyser := analyser s;
     dataArray := dataArray s; silenceStart := silenceStart s;
     currentChunks := v |}.

(** [Date.now() - silenceStart.current]; a [null] operand counts as [0]. *)
Definition elapsed_since (now : Z) (start : option Z) : Z :=
  now - match start with Some t => t | None => 0 end.

(** [detectSilence] (lines 29-52).  [now] is what [Date.now()] returns and
    [signal] what the analyser currently holds; the call fills [dataArray]
    with it. *)
Definition detectSilence `{Js.Math} (now : Z) (signal : list float) (s : State) : State :=
  match analyser s, dataArray s with
  | Some node, Some array =>
      let frame := AnalyserNode.getFloatTimeDomainData node signal array in
      let s1 := set_dataArray (Some frame) s in
      let db := decibels frame in
      if (db <? VAD_THRESHOLD)%float then
        if Js.falsy_number (silenceStart s1) then
          set_silenceStart (Some now) s1
        else if (elapsed_since now (silenceStart s1) >? SILENCE_DURATION)
                && (0 <? length (currentChunks s1))%nat then
          set_currentChunks []
            (set_mediaRecorder (option_map MediaRecorder.stop (mediaRecorder s1)) s1)
        else s1
      else set_silenceStart None s1
  | _, _ => s
  end.

(** After a call of [detectSilence] that found the analyser and the
    buffer, [silenceStart] is [null] exactly when the frame was taken for
    speech (the [else] branch of line 49). *)
Definition heard_speech (s' : State) : bool :=
  match silenceStart s' with
  | None => true
  | Some _ => false
  end.

(** [checkSilence] (lines 106-111), one turn of the loop.  [isRecording] is
    the constant of the render in which [startRecording] was created: the
    closure never sees a later value. *)
Definition checkSilence `{Js.Math} (isRecording_seen : bool) (now : Z)
    (signal : list float) (s : State) : State :=
  if isRecording_seen then detectSilence now signal s else s.

(** [startRecording] (lines 54-117).  [stream] is what [getUserMedia]
    resolves with ([None]: it rejects).  [now] and [signal] feed the call
    of [checkSilence] that ends the handler. *)
Definition startRecording `{Js.Math} (stream : option unit) (now : Z)
    (signal : list float) (s : State) : State :=
  match stream with
  | None => set_status error s
  | Some _ =>
      let node := {| AnalyserNode.fftSize := 1024 |} in
      let s1 :=
        set_mediaRecorder (Some MediaRecorder.create)
          (set_dataArray (Some (new_Float32Array (AnalyserNode.fftSize node)))
             (set_analyser (Some node)
                (set_audioContext (Some AudioContext.running) s))) in
      match MediaRecorder.start MediaRecorder.create with
      | Some r =>
          checkSilence (isRecording s) now signal
            (set_status recording
               (set_isRecording true (set_mediaRecorder (Some r) s1)))
      | None => set_status error s1
      end
  end.

(** [ondataavailable] (lines 67-69). *)
Definition ondataavailable (data : Blob) (s : State) : State :=
  set_currentChunks (currentChunks s ++ [data]) s.

(** [onstop] (lines 71-100) up to [await fetch]: the state it leaves and
    the form it posts. *)
Definition onstop_submit (s : State) : State * FormData :=
  let audioBlob := new_Blob (currentChunks s) in
  (set_status transcribing (set_audioChunks (audioChunks s ++ [audioBlob]) s),
   transcription_form audioBlob).

(** [mediaRecorder.current?.start()] as the last statement of a handler:
    when it throws, the handler ends there. *)
Definition restart_recorder (s : State) : State :=
  match mediaRecorder s with
  | Some r =>
      match MediaRecorder.start r with
      | Some r' => set_mediaRecorder (Some r') s
      | None => s
      end
  | None => s
  end.

(** [onstop] from the [await] on.  [fetch] resolves for every HTTP status;
    the body is decoded without a look at the status. *)
Definition onstop_settled (r : Reply) (s : State) : State :=
  let s1 :=
    match r with
    | NetworkError _ => s
    | Response _ (Unparseable _) => s
    | Response _ (Json text) => set_transcriptions (transcriptions s ++ [text]) s
    end in
  restart_recorder (set_status recording s1).

(** [stopRecording] (lines 119-127). *)
Definition stopRecording (s : State) : State :=
  match mediaRecorder s with
  | Some r =>
      if negb (MediaRecorder.is_inactive r) then
        set_status idle
          (set_isRecording false
             (set_audioContext (option_map AudioContext.close (audioContext s))
                (set_mediaRecorder
                   (Some (MediaRecorder.stop_tracks (MediaRecorder.stop r))) s)))
      else s
  | None => s
  end.

(** The component with the requests it has issued that have not settled,
    oldest first. *)
Record World : Type := {
  app : State;
  in_flight : list FormData
}.

Definition start_world : World := {| app := initial; in_flight := [] |}.

(** What can happen to the component, handler by handler.
    [AnimationFrame] is a call of [detectSilence]: the handlers are
    followed through such calls as well, although the page as written
    never makes one (see [TranscriptionAppRuns.offered] for the events of
    the page itself).  [RecorderStopped] is the dispatch of the events a
    [stop()] of the recorder queued, [dataavailable] with the recorded
    [data] and then [stop]; [Settled k] is the settlement of the [k]-th
    request in flight.  Events of a recorder that [startRecording] has
    replaced are not followed. *)
Inductive Event : Type :=
| ClickStart (stream : option unit) (now : Z) (signal : list float)
| ClickStop
| AnimationFrame (now : Z) (signal : list float)
| RecorderStopped (data : Blob)
| Settled (k : nat) (r : Reply).

Definition stop_pending (s : State) : bool :=
  match mediaRecorder s with
  | Some r => MediaRecorder.stop_queued r
  | None => false
  end.

(** The recorder is capturing audio. *)
Definition capturing (s : State) : bool :=
  match mediaRecorder s with
  | Some r => negb (MediaRecorder.is_inactive r)
  | None => false
  end.

Fixpoint remove_nth {A : Type} (k : nat) (l : list A) : list A :=
  match k, l with
  | _, [] => []
  | O, _ :: l' => l'
  | S k', x :: l' => x :: remove_nth k' l'
  end.

Definition step `{Js.Math} (e : Event) (w : World) : option World :=
  match e with
  | ClickStart stream now signal =>
      Some {| app := startRecording stream now signal (app w);
              in_flight := in_flight w |}
  | ClickStop =>
      Some {| app := stopRecording (app w); in_flight := in_flight w |}
  | AnimationFrame now signal =>
      Some {| app := detectSilence now signal (app w); in_flight := in_flight w |}
  | RecorderStopped data =>
      if stop_pending (app w) then
        let s1 := set_mediaRecorder
                    (option_map MediaRecorder.dispatched (mediaRecorder (app w)))
                    (app w) in
        let (s2, form) := onstop_submit (ondataavailable data s1) in
        Some {| app := s2; in_flight := in_flight w ++ [form] |}
      else None
  | Settled k r =>
      if (k <? length (in_flight w))%nat then
        Some {| app := onstop_settled r (app w);
                in_flight := remove_nth k (in_flight w) |}
      else None
  end.

Fixpoint run `{Js.Math} (evs : list Event) (w : World) : option World :=
  match evs with
  | [] => Some w
  | e :: evs' =>
      match step e w with
      | Some w' => run evs' w'
      | None => None
      end
  end.

(** A segment is emitted when a call inactivates the recorder, which
    queues the [stop] event whose handler submits the segment. *)
Definition emits (s s' : State) : bool :=
  negb (stop_pending s) && stop_pending s'.

(** The finalization test of the specification (section 4.2): silence has
    lasted at least [SILENCE_DURATION] and the accumulator is not empty. *)
Definition spec_finalizes (now : Z) (silenceStartedAt : option Z)
    (accumulated : list Blob) : bool :=
  match silenceStartedAt with
  | Some t => (SILENCE_DURATION <=? now - t) && negb (length accumulated =? 0)%nat
  | None => false
  end.

Definition is_start (e : Event) : bool :=
  match e with
  | ClickStart _ _ _ => true
  | _ => false
  end.

Definition is_settled (e : Event) : bool :=
  match e with
  | Settled _ _ => true
  | _ => false
  end.

(** The number of segments emitted along a trace. *)
Fixpoint emissions `{Js.Math} (evs : list Event) (w : World) : nat :=
  match evs with
  | [] => 0
  | e :: evs' =>
      match step e w with
      | Some w' => (if emits (app w) (app w') then 1 else 0) + emissions evs' w'
      | None => 0
      end
  end.

End TranscriptionApp.

(* ----------------------------------------------------------------- *)
(** ** AudioTranscription (src/RealTimeTranscriptionVAD.tsx, lines 112-419) *)

Module AudioTranscription.

Definition SILENCE_THRESHOLD : float := (-50)%float.
Definition SILENCE_DURATION : Z := 1000.

(** The state cells and refs the recording path reads or writes
    ([audioFile] and [isSupported] belong to the upload form and the
    support check). *)
Record State : Type := {
  isRecording : bool;
  transcription : string;
  error : option string;
  mediaRecorder : option MediaRecorder.t;
  silenceTimeout : option nat;
  audioContext : option AudioContext.t;
  audioQueue : list Blob
}.

Definition initial : State :=
  {| isRecording := false; transcription := ""; error := None;
     mediaRecorder := None; silenceTimeout := None; audioContext := None;
     audioQueue := [] |}.

Definition set_isRecording (v : bool) (s : State) : State :=
  {| isRecording := v; transcription := transcription s; error := error s;
     mediaRecorder := mediaRecorder s; silenceTimeout := silenceTimeout s;
     audioContext := audioContext s; audioQueue := audioQueue s |}.

Definition set_transcription (v : string) (s : State) : State :=
  {| isRecording := isRecording s; transcription := v; error := error s;
     mediaRecorder := mediaRecorder s; silenceTimeout := silenceTimeout s;
     audioContext := audioContext s; audioQueue := audioQueue s |}.

Definition set_error (v : option string) (s : State) : State :=
  {| isRecording := isRecording s; transcription := transcription s; error := v;
     mediaRecorder := mediaRecorder s; silenceTimeout := silenceTimeout s;
     audioContext := audioContext s; audioQueue := audioQueue s |}.

Definition set_mediaRecorder (v : option MediaRecorder.t) (s : State) : State :=
  {| isRecording := isRecording s; transcription := transcription s; error := error s;
     mediaRecorder := v; silenceTimeout := silenceTimeout s;
     audioContext := audioContext s; audioQueue := audioQueue s |}.

Definition set_silenceTimeout (v : option nat) (s : State) : State :=
  {| isRecording := isRecording s; transcription := transcription s; error := error s;
     mediaRecorder := mediaRecorder s; silenceTimeout := v;
     audioContext := audioContext s; audioQueue := audioQueue s |}.

Definition set_audioContext (v : option AudioContext.t) (s : State) : State :=
  {| isRecording := isRecording s; transcription := transcription s; error := error s;
     mediaRecorder := mediaRecorder s; silenceTimeout := silenceTimeout s;
     audioContext := v; audioQueue := audioQueue s |}.

Definition set_audioQueue (v : list Blob) (s : State) : State :=
  {| isRecording := isRecording s; transcription := transcription s; error := error s;
     mediaRecorder := mediaRecorder s; silenceTimeout := silenceTimeout s;
     audioContext := audioContext s; audioQueue := v |}.

(** [stopRecording] (lines 295-304). *)
Definition stopRecording (s : State) : State :=
  let s1 :=
    match mediaRecorder s with
    | Some r =>
        if negb (MediaRecorder.is_inactive r)
        then set_mediaRecorder
               (Some (MediaRecorder.stop_tracks (MediaRecorder.stop r))) s
        else s
    | None => s
    end in
  let s2 :=
    match audioContext s1 with
    | Some c => set_audioContext (Some (AudioContext.close c)) s1
    | None => s1
    end in
  set_isRecording false s2.

(** The [catch] of [processAudioChunk] (lines 198-205). *)
Definition processAudioChunk_failed (message : string) (s : State) : State :=
  stopRecording (set_error (Some ("Error processing audio: " ++ message)%string) s).

Definition status_text (status : Z) : string :=
  DecimalString.NilZero.string_of_int (Z.to_int status).

(** [processAudioChunk] (lines 174-206) from the [await] on. *)
Definition processAudioChunk_settled (r : Reply) (s : State) : State :=
  match r with
  | NetworkError message => processAudioChunk_failed message s
  | Response status body =>
      if negb (response_ok status) then
        processAudioChunk_failed ("API error: " ++ status_text status)%string s
      else
        match body with
        | Unparseable message => processAudioChunk_failed message s
        | Json text =>
            if Js.truthy text
            then set_transcription (Js.concat_text (transcription s) text) s
            else s
        end
  end.

(** The component with its requests in flight (oldest first) and the
    timers that are armed.  Timer handles are the positive integers, in
    the order of the calls of [setTimeout]. *)
Record World : Type := {
  app : State;
  in_flight : list FormData;
  timers : list nat;
  next_timer : nat
}.

Definition start_world : World :=
  {| app := initial; in_flight := []; timers := []; next_timer := 1 |}.

Definition with_app (s : State) (w : World) : World :=
  {| app := s; in_flight := in_flight w; timers := timers w;
     next_timer := next_timer w |}.

(** [!silenceTimeout.current]: [null] and a handle [0] are falsy. *)
Definition falsy_handle (h : option nat) : bool :=
  match h with
  | None => true
  | Some n => Nat.eqb n 0
  end.

(** [silenceTimeout.current = setTimeout(..., SILENCE_DURATION)]. *)
Definition arm_silence_timer (w : World) : World :=
  {| app := set_silenceTimeout (Some (next_timer w)) (app w);
     in_flight := in_flight w;
     timers := timers w ++ [next_timer w];
     next_timer := S (next_timer w) |}.

(** [clearTimeout(silenceTimeout.current); silenceTimeout.current = null]. *)
Definition clear_silence_timer (w : World) : World :=
  {| app := set_silenceTimeout None (app w);
     in_flight := in_flight w;
     timers := match silenceTimeout (app w) with
               | Some h => filter (fun t => negb (Nat.eqb t h)) (timers w)
               | None => timers w
               end;
     next_timer := next_timer w |}.

(** The analyser [setupVAD] creates (lines 213-214). *)
Definition vad_analyser : AnalyserNode.t := {| AnalyserNode.fftSize := 2048 |}.

(** The frame one call of [checkAudioLevel] reads (lines 221-222). *)
Definition read_frame (signal : list float) : list float :=
  AnalyserNode.getFloatTimeDomainData vad_analyser signal
    (new_Float32Array (AnalyserNode.frequencyBinCount vad_analyser)).

(** [checkAudioLevel] (lines 218-251), one turn of the loop.  [isRecording]
    is the constant of the render in which [startRecording] was created. *)
Definition checkAudioLevel `{Js.Math} (isRecording_seen : bool)
    (signal : list float) (w : World) : World :=
  if negb isRecording_seen then w
  else
    let db := decibels (read_frame signal) in
    if (db <? SILENCE_THRESHOLD)%float then
      if falsy_handle (silenceTimeout (app w)) then arm_silence_timer w else w
    else
      if negb (falsy_handle (silenceTimeout (app w))) then clear_silence_timer w
      else w.

(** The callback of the silence timer (lines 233-241): the queue is posted
    as one blob when it is not empty. *)
Definition silence_elapsed (w : World) : World :=
  if (0 <? length (audioQueue (app w)))%nat then
    {| app := set_audioQueue [] (app w);
       in_flight := in_flight w
                      ++ [transcription_form (new_Blob (audioQueue (app w)))];
       timers := timers w;
       next_timer := next_timer w |}
  else w.

(** [ondataavailable] (lines 271-275). *)
Definition ondataavailable (data : Blob) (s : State) : State :=
  if (0 <? Blob_size data)%nat
  then set_audioQueue (audioQueue s ++ [data]) s
  else s.

(** [onerror] (lines 277-281). *)
Definition onerror (message : string) (s : State) : State :=
  stopRecording (set_error (Some ("Recording error: " ++ message)%string) s).

(** What [getUserMedia] settles with. *)
Inductive Access : Type :=
| Granted
| Denied (message : string).

(** [startRecording] (lines 256-293) with [setupVAD] (lines 208-254). *)
Definition startRecording `{Js.Math} (stream : Access) (signal : list float)
    (w : World) : World :=
  let s0 := set_error None (app w) in
  match stream with
  | Denied message =>
      with_app (set_error (Some ("Microphone access error: " ++ message)%string) s0) w
  | Granted =>
      let s1 := set_mediaRecorder (Some MediaRecorder.create) s0 in
      let s2 := set_audioContext (Some AudioContext.running) s1 in
      let w2 := checkAudioLevel (isRecording (app w)) signal (with_app s2 w) in
      match MediaRecorder.start MediaRecorder.create with
      | Some r =>
          with_app (set_isRecording true (set_mediaRecorder (Some r) (app w2))) w2
      | None =>
          with_app (set_error (Some "Microphone access error: Unknown error") (app w2)) w2
      end
  end.

Fixpoint remove_nth {A : Type} (k : nat) (l : list A) : list A :=
  match k, l with
  | _, [] => []
  | O, _ :: l' => l'
  | S k', x :: l' => x :: remove_nth k' l'
  end.

(** What can happen to the component, handler by handler.
    [AnimationFrame] is a call of [checkAudioLevel] with the [isRecording]
    its closure holds: the handlers are followed for either value, although
    on the page as written the closure only ever holds [false] (see
    [AudioTranscriptionRuns.offered] for the events of the page itself).
    [TimerFired] is the expiry of an armed timer; [DataAvailable] a
    [dataavailable] event of the recorder. *)
Inductive Event : Type :=
| ClickStart (stream : Access) (signal : list float)
| ClickStop
| AnimationFrame (isRecording_seen : bool) (signal : list float)
| TimerFired (h : nat)
| DataAvailable (data : Blob)
| RecorderError (message : string)
| Settled (k : nat) (r : Reply).

Definition step `{Js.Math} (e : Event) (w : World) : option World :=
  match e with
  | ClickStart stream signal => Some (startRecording stream signal w)
  | ClickStop => Some (with_app (stopRecording (app w)) w)
  | AnimationFrame seen signal => Some (checkAudioLevel seen signal w)
  | TimerFired h =>
      if existsb (Nat.eqb h) (timers w) then
        Some (silence_elapsed
                {| app := app w; in_flight := in_flight w;
                   timers := filter (fun t => negb (Nat.eqb t h)) (timers w);
                   next_timer := next_timer w |})
      else None
  | DataAvailable data => Some (with_app (ondataavailable data (app w)) w)
  | RecorderError message => Some (with_app (onerror message (app w)) w)
  | Settled k r =>
      if (k <? length (in_flight w))%nat then
        Some {| app := processAudioChunk_settled r (app w);
                in_flight := remove_nth k (in_flight w);
                timers := timers w;
                next_timer := next_timer w |}
      else None
  end.

Fixpoint run `{Js.Math} (evs : list Event) (w : World) : option World :=
  match evs with
  | [] => Some w
  | e :: evs' =>
      match step e w with
      | Some w' => run evs' w'
      | None => None
      end
  end.

(** The recorder is capturing audio. *)
Definition capturing (s : State) : bool :=
  match mediaRecorder s with
  | Some r => negb (MediaRecorder.is_inactive r)
  | None => false
  end.

(** After a call of [checkAudioLevel] no silence timer is held exactly when
    the frame was taken for speech (the [else] branch of line 243). *)
Definition heard_speech (w' : World) : bool :=
  falsy_handle (silenceTimeout (app w')).

End AudioTranscription.

(* ----------------------------------------------------------------- *)
(** ** Frames, blobs and replies to run the components on *)

Module Examples.

(** A frame is 1024 samples in both components. *)
Definition silence_frame : list float := repeat 0%float 1024.

(** Full scale: the level is 0 dB. *)
Definition loud_frame : list float := repeat 1%float 1024.

(** Every sample is 2^-8: the level is 20 log10 (2^-8), about -48.16 dB. *)
Definition faint_frame : list float := repeat 0.00390625%float 1024.

Definition blob1 : Blob := [Byte.x01].
Definition blob2 : Blob := [Byte.x02].

Definition hello : Reply := Response 200 (Json (Js.str "hello")).
Definition unreachable : Reply := NetworkError "Failed to fetch".

(** TranscriptionApp: a first session that is stopped by hand, and whose
    only segment is transcribed. *)
Definition first_session : list TranscriptionApp.Event :=
  [ TranscriptionApp.ClickStart (Some tt) 0 silence_frame;
    TranscriptionApp.ClickStop;
    TranscriptionApp.RecorderStopped blob1;
    TranscriptionApp.Settled 0 hello ].

(** The start of a second session. *)
Definition second_start : TranscriptionApp.Event :=
  TranscriptionApp.ClickStart (Some tt) 500 silence_frame.

(** Speech at 700 ms, the first silent frame at 1000 ms. *)
Definition speech_then_silence : list TranscriptionApp.Event :=
  [ TranscriptionApp.AnimationFrame 700 loud_frame;
    TranscriptionApp.AnimationFrame 1000 silence_frame ].

Definition into_silence : list TranscriptionApp.Event :=
  first_session ++ [second_start] ++ speech_then_silence.

(** AudioTranscription: a session in which one second of speech has been
    recorded when Stop is clicked; the recorder then delivers the rest. *)
Definition stopped_mid_speech : list AudioTranscription.Event :=
  [ AudioTranscription.ClickStart AudioTranscription.Granted loud_frame;
    AudioTranscription.DataAvailable blob1;
    AudioTranscription.ClickStop;
    AudioTranscription.DataAvailable blob2 ].

(** AudioTranscription: a session whose first segment has been posted. *)
Definition one_segment_posted : list AudioTranscription.Event :=
  [ AudioTranscription.ClickStart AudioTranscription.Granted loud_frame;
    AudioTranscription.DataAvailable blob1;
    AudioTranscription.AnimationFrame true silence_frame;
    AudioTranscription.TimerFired 1 ].

End Examples.

(* ----------------------------------------------------------------- *)
(** ** TranscriptionApp: the saved audio and sessions stopped by hand *)

Module TranscriptionAppAudio.
Import TranscriptionApp.

(** [saveAudio] (lines 129-141): nothing without audio; otherwise one blob
    of all of [audioChunks] is offered for download under a name built
    from [iso], the value of [new Date().toISOString()]. *)
Definition saveAudio (iso : string) (s : State) : option (string * Blob) :=
  if (length (audioChunks s) =? 0)%nat then None
  else Some (("transcription-" ++ iso ++ ".wav")%string, new_Blob (audioChunks s)).

(** The form an event posts, if it posts one. *)
Definition step_posts (e : Event) (w : World) : list FormData :=
  match e with
  | RecorderStopped data =>
      if stop_pending (app w)
      then [snd (onstop_submit (ondataavailable data (app w)))]
      else []
  | _ => []
  end.

(** The forms posted along a trace, oldest first. *)
Fixpoint posted `{Js.Math} (evs : list Event) (w : World) : list FormData :=
  match evs with
  | [] => []
  | e :: evs' =>
      match step e w with
      | Some w' => step_posts e w ++ posted evs' w'
      | None => []
      end
  end.

(** One session that is stopped by hand: Start, Stop, the recorder
    delivers [data], the reply [r] arrives. *)
Definition manual_session (x : Z * list float * Blob * Reply) : list Event :=
  let '(now, signal, data, r) := x in
  [ClickStart (Some tt) now signal; ClickStop; RecorderStopped data; Settled 0 r].

Definition session_data (x : Z * list float * Blob * Reply) : Blob :=
  let '(_, _, data, _) := x in data.

(** The blobs of the growing accumulator: [acc] with the first of [ds],
    with the first two, and so on. *)
Fixpoint growing_blobs (acc ds : list Blob) : list Blob :=
  match ds with
  | [] => []
  | d :: ds' => new_Blob (acc ++ [d]) :: growing_blobs (acc ++ [d]) ds'
  end.

End TranscriptionAppAudio.

(* ----------------------------------------------------------------- *)
(** ** RealTimeTranscriptionVAD: what the page shows *)

Module VADView.
Import RealTimeTranscriptionVAD.

(** The list of clips as rendered (lines 85-92): each clip with the
    number in its caption, [audioList.length - index]. *)
Definition clip_captions (s : State) : list (string * nat) :=
  map (fun p => (snd p, (length (audioList s) - fst p)%nat))
      (combine (seq 0 (length (audioList s))) (audioList s)).

End VADView.

(* ----------------------------------------------------------------- *)
(** ** AudioTranscription: silence episodes, and the rest of the page *)

Module AudioTranscriptionPage.
Import AudioTranscription.

(** The frame is below the threshold (line 231). *)
Definition silent `{Js.Math} (signal : list float) : bool :=
  (decibels (read_frame signal) <? SILENCE_THRESHOLD)%float.

(** An event during which the silence goes on: no call of
    [checkAudioLevel] sees a frame at or above the threshold. *)
Definition keeps_silence `{Js.Math} (e : Event) : bool :=
  match e with
  | ClickStart _ signal => silent signal
  | AnimationFrame _ signal => silent signal
  | _ => true
  end.

(** The text of a reply that [processAudioChunk] takes for a
    transcription: a success status and a non-empty [text]. *)
Definition transcribed (r : Reply) : option string :=
  match r with
  | Response status (Json (Js.str t)) =>
      if response_ok status && negb (t =? "")%string then Some t else None
  | _ => None
  end.

(** What a run of replies adds to the transcript: a space and the text,
    for each reply that carries a transcription. *)
Fixpoint spoken (rs : list Reply) : string :=
  match rs with
  | [] => ""
  | r :: rs' =>
      match transcribed r with
      | Some t => (" " ++ t ++ spoken rs')%string
      | None => spoken rs'
      end
  end.

(** The file of an upload, and the cells of the component the recording
    path does not use. *)
Record File : Type := {
  file_name : string;
  file_bytes : list Byte.byte
}.

Record Page : Type := {
  recording : State;
  audioFile : option File;
  isSupported : bool
}.

Definition initial_page : Page :=
  {| recording := initial; audioFile := None; isSupported := false |}.

(** [handleFileUpload] (lines 306-344) up to the [await]: with a file
    chosen, the error is cleared, the file is kept, and its bytes are
    posted; without one nothing happens. *)
Definition handleFileUpload_request (file : option File) (p : Page)
  : Page * option FormData :=
  match file with
  | Some f =>
      ({| recording := set_error None (recording p);
          audioFile := Some f;
          isSupported := isSupported p |},
       Some (transcription_form (file_bytes f)))
  | None => (p, None)
  end.

Definition upload_failed (message : string) (p : Page) : Page :=
  {| recording :=
       set_error (Some ("Error processing audio file: " ++ message)%string)
         (recording p);
     audioFile := audioFile p;
     isSupported := isSupported p |}.

(** [handleFileUpload] from the [await] on. *)
Definition handleFileUpload_settled (r : Reply) (p : Page) : Page :=
  match r with
  | NetworkError message => upload_failed message p
  | Response status body =>
      if negb (response_ok status) then
        upload_failed ("API error: " ++ status_text status)%string p
      else
        match body with
        | Unparseable message => upload_failed message p
        | Json text =>
            if Js.truthy text then
              {| recording :=
                   set_transcription
                     match text with
                     | Js.str t => t
                     | Js.undefined => ""
                     end (recording p);
                 audioFile := audioFile p;
                 isSupported := isSupported p |}
            else p
        end
  end.

(** [window.location], as far as the support check reads it. *)
Record Location : Type := {
  protocol : string;
  hostname : string
}.

Definition unsupported (message : string) (p : Page) : Page :=
  {| recording := set_error (Some message) (recording p);
     audioFile := audioFile p;
     isSupported := false |}.

(** [checkBrowserSupport] (lines 136-168).  [mediaDevices] tells whether
    [navigator.mediaDevices] is there, [access] what [getUserMedia]
    settles with. *)
Definition checkBrowserSupport (location : Location) (mediaDevices : bool)
    (access : Access) (p : Page) : Page :=
  if negb (protocol location =? "https:")%string
     && negb (hostname location =? "localhost")%string then
    unsupported
      "Audio recording requires a secure connection (HTTPS) unless running on localhost"
      p
  else if negb mediaDevices then
    unsupported "MediaDevices API not available" p
  else
    match access with
    | Granted =>
        {| recording := recording p; audioFile := audioFile p;
           isSupported := true |}
    | Denied _ => unsupported "Microphone access denied or not available" p
    end.

End AudioTranscriptionPage.

(* ----------------------------------------------------------------- *)
(** ** The runs of the two recording pages *)

Module TranscriptionAppRuns.
Import TranscriptionApp.

(** The events the page itself brings about.  Its one button calls
    [startRecording] while [isRecording] is false and [stopRecording]
    while it is true (line 165).  There is no [AnimationFrame]:
    [checkSilence] closes over the [isRecording] of the render that
    created [startRecording], which is false whenever the button offers
    that handler, so the loop of lines 106-112 ends at its first test and
    [detectSilence] is never called.  The recorder's events and the
    replies come when they come. *)
Definition offered (e : Event) (w : World) : bool :=
  match e with
  | ClickStart _ _ _ => negb (isRecording (app w))
  | ClickStop => isRecording (app w)
  | AnimationFrame _ _ => false
  | RecorderStopped _ => true
  | Settled _ _ => true
  end.

Fixpoint run_page `{Js.Math} (evs : list Event) (w : World) : option World :=
  match evs with
  | [] => Some w
  | e :: evs' =>
      if offered e w then
        match step e w with
        | Some w' => run_page evs' w'
        | None => None
        end
      else None
  end.






End TranscriptionAppRuns.

Module AudioTranscriptionRuns.
Import AudioTranscription.

(** The events the page itself brings about.  Its one button calls
    [startRecording] while [isRecording] is false and [stopRecording]
    while it is true (line 373).  [checkAudioLevel] closes over the
    [isRecording] of the render that created [startRecording], which is
    false whenever the button offers that handler: a call of it returns at
    line 219. *)
Definition offered (e : Event) (w : World) : bool :=
  match e with
  | ClickStart _ _ => negb (isRecording (app w))
  | ClickStop => isRecording (app w)
  | AnimationFrame isRecording_seen _ => negb isRecording_seen
  | _ => true
  end.

Fixpoint run_page `{Js.Math} (evs : list Event) (w : World) : option World :=
  match evs with
  | [] => Some w
  | e :: evs' =>
      if offered e w then
        match step e w with
        | Some w' => run_page evs' w'
        | None => None
        end
      else None
  end.

End AudioTranscriptionRuns.

(* ================================================================= *)
(** * Part II: the properties *)
(* ================================================================= *)

(** ** Facts on IEEE 754 comparisons *)

Section FloatComparison.

Lemma SFcompare_swap x y c :
  SFcompare x y = Some c -> SFcompare y x = Some (CompOpp c).
Proof.
  destruct x as [sx|sx| |sx mx ex], y as [sy|sy| |sy my ey]; simpl;
    try discriminate;
    try (destruct sx; try destruct sy; intros [= <-]; reflexivity);
    try (destruct sy; intros [= <-]; reflexivity);
    try (intros [= <-]; reflexivity).
  destruct sx, sy; intros [= <-]; try reflexivity.
  - rewrite (Z.compare_antisym ey ex).
    destruct (ey ?= ex)%Z; simpl; try reflexivity.
    rewrite Pos.compare_cont_antisym. simpl.
    rewrite CompOpp_involutive. reflexivity.
  - rewrite (Z.compare_antisym ey ex).
    destruct (ey ?= ex)%Z; simpl; try reflexivity.
    rewrite Pos.compare_cont_antisym. reflexivity.
Qed.

Lemma SFcompare_none x y :
  SFcompare x y = None <-> x = S754_nan \/ y = S754_nan.
Proof.
  destruct x as [sx|sx| |sx mx ex], y as [sy|sy| |sy my ey]; simpl;
    split; intros H; try discriminate; auto; destruct H; discriminate.
Qed.

Lemma SFcompare_refl x : x <> S754_nan -> SFcompare x x = Some Eq.
Proof.
  destruct x as [s|s| |s m e]; simpl; intros H.
  - reflexivity.
  - destruct s; reflexivity.
  - congruence.
  - destruct s; rewrite Z.compare_refl, Pos.compare_cont_refl; reflexivity.
Qed.

Lemma is_nan_spec x : is_nan x = true <-> Prim2SF x = S754_nan.
Proof.
  unfold is_nan. rewrite eqb_spec. unfold SFeqb. split.
  - intros H. destruct (Prim2SF x) eqn:E; try reflexivity;
      rewrite SFcompare_refl in H by discriminate; discriminate.
  - intros ->. reflexivity.
Qed.

(** [x < y] fails exactly when [y <= x] holds or [x] is not a number. *)
Lemma not_ltb_is_leb_or_nan x y :
  is_nan y = false ->
  negb (x <? y)%float = ((y <=? x)%float || is_nan x).
Proof.
  intros Hy. rewrite ltb_spec, leb_spec. unfold SFltb, SFleb.
  destruct (is_nan x) eqn:Hx.
  - apply is_nan_spec in Hx. rewrite Hx. simpl.
    rewrite orb_true_r. reflexivity.
  - rewrite orb_false_r.
    destruct (SFcompare (Prim2SF x) (Prim2SF y)) as [c|] eqn:E.
    + rewrite (SFcompare_swap _ _ _ E). destruct c; reflexivity.
    + apply SFcompare_none in E.
      destruct E as [E|E]; apply is_nan_spec in E; congruence.
Qed.

Lemma ltb_not_eqb x y : (x <? y)%float = true -> (x =? y)%float = false.
Proof.
  rewrite ltb_spec, eqb_spec. unfold SFltb, SFeqb.
  destruct (SFcompare (Prim2SF x) (Prim2SF y)) as [[]|]; congruence.
Qed.

End FloatComparison.

(** ** A [Math] object to run the components with *)

Lemma log10_reference_negative x :
  (x <? 0)%float = true -> Js.log10_reference x = nan.
Proof.
  intros H. unfold Js.log10_reference.
  rewrite (ltb_not_eqb _ _ H), H. reflexivity.
Qed.

Lemma log10_reference_zero x :
  (x =? 0)%float = true -> Js.log10_reference x = neg_infinity.
Proof. intros H. unfold Js.log10_reference. rewrite H. reflexivity. Qed.

#[export] Instance reference_math : Js.Math :=
  {| Js.Math_log10 := Js.log10_reference;
     Js.log10_nan := eq_refl;
     Js.log10_negative := log10_reference_negative;
     Js.log10_zero := log10_reference_zero;
     Js.log10_one := eq_refl;
     Js.log10_infinity := eq_refl |}.

(** ** RealTimeTranscriptionVAD: the two lists *)

Module VADExamples.
Import RealTimeTranscriptionVAD.

(** Stand-ins for the two library functions, to run traces with; no
    property below depends on what they return. *)
Definition sample_encodeWAV (audio : list float) : ArrayBuffer :=
  repeat Byte.x00 (2 * length audio).

Definition sample_base64 (b : ArrayBuffer) : string :=
  match b with
  | [] => ""
  | _ :: _ => "AAAA"
  end.

Definition run0 := run sample_encodeWAV sample_base64.

(** Scenario C: two utterances are captured; the second request resolves
    first with "b", the first resolves second with "a". *)
Definition scenario_C : list Event :=
  [ SpeechEnd [0.5%float]; SpeechEnd [0.25%float; 0.25%float];
    Settled 1 (Response 200 (Json (Js.str "b")));
    Settled 0 (Response 200 (Json (Js.str "a"))) ].

Definition after_scenario_C : World :=
  {| react := {| audioList := ["data:audio/wav;base64,AAAA"; "data:audio/wav;base64,AAAA"];
                 transcription := [Js.str "b"; Js.str "a"] |};
     in_flight := [];
     issued := 2 |}.

(** The same two utterances with the replies in capture order. *)
Definition scenario_in_order : list Event :=
  [ SpeechEnd [0.5%float]; SpeechEnd [0.25%float; 0.25%float];
    Settled 0 (Response 200 (Json (Js.str "a")));
    Settled 1 (Response 200 (Json (Js.str "b"))) ].

Definition after_scenario_in_order : World :=
  {| react := {| audioList := ["data:audio/wav;base64,AAAA"; "data:audio/wav;base64,AAAA"];
                 transcription := [Js.str "a"; Js.str "b"] |};
     in_flight := [];
     issued := 2 |}.

End VADExamples.

Section VADLists.
Import RealTimeTranscriptionVAD.

Variable encodeWAV : list float -> ArrayBuffer.
Variable arrayBufferToBase64 : ArrayBuffer -> string.

Let run := run encodeWAV arrayBufferToBase64.
Let audioURL_of := audioURL_of encodeWAV arrayBufferToBase64.

Lemma settled_appends r s :
  transcription (sendAudioForTranscription_settled r s)
  = transcription s ++ match axios_post r with Some t => [t] | None => [] end
  /\ audioList (sendAudioForTranscription_settled r s) = audioList s.
Proof.
  unfold sendAudioForTranscription_settled.
  destruct (axios_post r); simpl; [|rewrite app_nil_r]; auto.
Qed.

Lemma run_lists evs : forall w w',
  run evs w = Some w' ->
  audioList (react w') = rev (map audioURL_of (clips evs)) ++ audioList (react w)
  /\ transcription (react w') = transcription (react w) ++ completion_order evs.
Proof.
  induction evs as [|e evs IH]; intros w w' H.
  - injection H as <-. unfold completion_order. simpl.
    rewrite app_nil_r. auto.
  - simpl in H. destruct (step encodeWAV arrayBufferToBase64 e w) as [w1|] eqn:S;
      [|discriminate].
    apply IH in H. destruct H as [Ha Ht]. rewrite Ha, Ht. clear Ha Ht IH.
    destruct e as [audio|k r]; simpl in S.
    + injection S as <-. simpl. rewrite <- app_assoc. auto.
    + destruct (existsb (is_request k) (in_flight w)); [|discriminate].
      injection S as <-. simpl.
      destruct (settled_appends r (react w)) as [Et Ea]. rewrite Et, Ea.
      unfold completion_order. simpl.
      destruct (axios_post r); simpl; rewrite <- app_assoc; auto.
Qed.

Lemma insert_below_head x l :
  HdRel (fun a b => (fst a <= fst b)%nat) x l -> insert_by_sequence x l = x :: l.
Proof.
  intros H. destruct H as [|y l' Hxy]; simpl; [reflexivity|].
  apply Nat.leb_le in Hxy. rewrite Hxy. reflexivity.
Qed.

Lemma sort_sorted l :
  Sorted (fun a b => (fst a <= fst b)%nat) l -> sort_by_sequence l = l.
Proof.
  induction 1 as [|x l Hs IH Hd]; simpl; [reflexivity|].
  fold (sort_by_sequence l). rewrite IH. apply insert_below_head, Hd.
Qed.

(** C9.  In RealTimeTranscriptionVAD, whatever the utterances and in
    whatever order their requests settle, [audioList] holds the clips
    newest first (the reverse of the capture order) and [transcription]
    holds the texts of the requests that resolved, in the order in which
    they completed. *)
Theorem audioList_reversed_transcription_by_completion evs w :
  run evs start_world = Some w ->
  audioList (react w) = rev (map audioURL_of (clips evs))
  /\ transcription (react w) = completion_order evs.
Proof.
  intros H. apply run_lists in H. simpl in H.
  rewrite app_nil_r in H. exact H.
Qed.

Lemma insert_HdRel a x l :
  (fst a <= fst x)%nat ->
  HdRel (fun a b => (fst a <= fst b)%nat) a l ->
  HdRel (fun a b => (fst a <= fst b)%nat) a (insert_by_sequence x l).
Proof.
  intros Hax H. destruct H as [|y l' Hay]; simpl; [constructor; exact Hax|].
  destruct (Nat.leb (fst x) (fst y)); constructor; assumption.
Qed.

Lemma insert_Sorted x l :
  Sorted (fun a b => (fst a <= fst b)%nat) l ->
  Sorted (fun a b => (fst a <= fst b)%nat) (insert_by_sequence x l).
Proof.
  induction 1 as [|y l Hs IH Hd]; simpl; [repeat constructor|].
  destruct (Nat.leb (fst x) (fst y)) eqn:L.
  - apply Nat.leb_le in L. repeat constructor; assumption.
  - apply Nat.leb_gt in L. constructor; [exact IH|].
    apply insert_HdRel; [lia|exact Hd].
Qed.

Lemma sort_by_sequence_Sorted l :
  Sorted (fun a b => (fst a <= fst b)%nat) (sort_by_sequence l).
Proof.
  induction l as [|x l IH]; simpl; [constructor|].
  apply insert_Sorted, IH.
Qed.

(** C1 (amended).  In RealTimeTranscriptionVAD, for every interleaving of
    the settlements, the transcript lists the texts in the order in which
    the requests completed.  It reads in capture (sequence-number) order
    whenever the requests completed in capture order, and the listing by
    sequence number is the completion listing in that case only. *)
Theorem transcript_is_in_completion_order evs w :
  run evs start_world = Some w ->
  transcription (react w) = completion_order evs
  /\ (Sorted (fun a b => (fst a <= fst b)%nat) (completions evs) ->
      transcription (react w) = capture_order evs)
  /\ (sort_by_sequence (completions evs) = completions evs
      <-> Sorted (fun a b => (fst a <= fst b)%nat) (completions evs)).
Proof.
  intros H. apply run_lists in H. destruct H as [_ H]. simpl in H.
  split; [exact H|]. split.
  - intros Hs. rewrite H. unfold capture_order, completion_order.
    rewrite (sort_sorted _ Hs). reflexivity.
  - split; [|apply sort_sorted].
    intros E. rewrite <- E. apply sort_by_sequence_Sorted.
Qed.

End VADLists.

Section VADInstances.
Import RealTimeTranscriptionVAD VADExamples.

(** C1 (counterexample).  Scenario C on the component: the transcript
    reads "b" before "a", the completion order, where the capture order is
    "a" before "b". *)
Lemma scenario_C_reads_completion_order :
  run0 scenario_C start_world = Some after_scenario_C
  /\ transcription (react after_scenario_C) = [Js.str "b"; Js.str "a"]
  /\ capture_order scenario_C = [Js.str "a"; Js.str "b"].
Proof. repeat split. Qed.

Lemma transcript_is_in_completion_order_witness :
  run0 scenario_in_order start_world = Some after_scenario_in_order
  /\ Sorted (fun a b => (fst a <= fst b)%nat) (completions scenario_in_order)
  /\ transcription (react after_scenario_in_order) = completion_order scenario_in_order
  /\ transcription (react after_scenario_in_order) = capture_order scenario_in_order.
Proof.
  assert (R : run0 scenario_in_order start_world = Some after_scenario_in_order)
    by reflexivity.
  assert (S : Sorted (fun a b => (fst a <= fst b)%nat) (completions scenario_in_order)).
  { simpl. repeat constructor. }
  split; [exact R|]. split; [exact S|].
  destruct (transcript_is_in_completion_order
              sample_encodeWAV sample_base64 scenario_in_order
              after_scenario_in_order R) as (H1 & H2 & _).
  split; [exact H1|exact (H2 S)].
Defined.

Lemma audioList_reversed_witness :
  run0 scenario_C start_world = Some after_scenario_C
  /\ audioList (react after_scenario_C)
     = rev (map (audioURL_of sample_encodeWAV sample_base64) (clips scenario_C))
  /\ transcription (react after_scenario_C) = completion_order scenario_C.
Proof.
  assert (R : run0 scenario_C start_world = Some after_scenario_C) by reflexivity.
  split; [exact R|].
  exact (audioList_reversed_transcription_by_completion
           sample_encodeWAV sample_base64 scenario_C after_scenario_C R).
Defined.

End VADInstances.

(** ** TranscriptionApp: when [detectSilence] emits a segment *)

Section DetectSilence.
Import TranscriptionApp.
Context {M : Js.Math}.

Lemma emits_unchanged_recorder s s' :
  mediaRecorder s' = mediaRecorder s -> emits s s' = false.
Proof.
  intros E. unfold emits, stop_pending. rewrite E.
  destruct (mediaRecorder s) as [r|]; [|reflexivity].
  destruct (MediaRecorder.stop_queued r); reflexivity.
Qed.

Lemma emits_stopped_recorder s s' :
  mediaRecorder s' = option_map MediaRecorder.stop (mediaRecorder s) ->
  emits s s' = true <->
  exists r, mediaRecorder s = Some r
            /\ MediaRecorder.is_inactive r = false
            /\ MediaRecorder.stop_queued r = false.
Proof.
  intros E. unfold emits, stop_pending. rewrite E.
  destruct (mediaRecorder s) as [r|]; simpl.
  - unfold MediaRecorder.stop.
    destruct (MediaRecorder.is_inactive r) eqn:I,
             (MediaRecorder.stop_queued r) eqn:Q; simpl; rewrite ?Q; simpl;
      split; intros H; try discriminate;
      try (destruct H as (r' & [= <-] & H1 & H2); congruence).
    exists r. auto.
  - split; [discriminate|]. intros (r & H & _). discriminate.
Qed.

(** C4 (amended).  A call of [detectSilence] emits a segment exactly when
    the analyser, the buffer and a capturing recorder are there, the level
    of the frame is below the threshold, a silence start recorded by an
    earlier call lies strictly more than [SILENCE_DURATION] milliseconds
    back, and the accumulator is not empty.  On an empty accumulator no
    call emits. *)
Theorem detectSilence_emits_exactly_when now signal s :
  (emits s (detectSilence now signal s) = true <->
   exists node array r t,
     analyser s = Some node /\ dataArray s = Some array
     /\ mediaRecorder s = Some r
     /\ MediaRecorder.is_inactive r = false
     /\ MediaRecorder.stop_queued r = false
     /\ (decibels (AnalyserNode.getFloatTimeDomainData node signal array)
           <? VAD_THRESHOLD)%float = true
     /\ silenceStart s = Some t /\ t <> 0
     /\ now - t > SILENCE_DURATION
     /\ currentChunks s <> [])
  /\ emits (set_currentChunks [] s)
           (detectSilence now signal (set_currentChunks [] s)) = false.
Proof.
  split.
  - unfold detectSilence.
    destruct (analyser s) as [node|] eqn:An;
      [|rewrite emits_unchanged_recorder by reflexivity; split;
        [discriminate|intros (?&?&?&?&?&_); discriminate]].
    destruct (dataArray s) as [array|] eqn:Da;
      [|rewrite emits_unchanged_recorder by reflexivity; split;
        [discriminate|intros (?&?&?&?&?&?&_); discriminate]].
    cbv zeta.
    destruct (decibels (AnalyserNode.getFloatTimeDomainData node signal array)
                <? VAD_THRESHOLD)%float eqn:Db;
      [|rewrite emits_unchanged_recorder by reflexivity; split;
        [discriminate|intros (n&a&?&?&[= <-]&[= <-]&_&_&_&D&_); congruence]].
    cbn [silenceStart set_dataArray currentChunks mediaRecorder].
    destruct (Js.falsy_number (silenceStart s)) eqn:F.
    { rewrite emits_unchanged_recorder by reflexivity. split; [discriminate|].
      intros (n&a&r&t&_&_&_&_&_&_&St&T0&_). rewrite St in F. simpl in F.
      apply Z.eqb_eq in F. contradiction. }
    destruct (silenceStart s) as [t|] eqn:St; [|discriminate]. simpl in F.
    apply Z.eqb_neq in F. unfold elapsed_since.
    destruct (now - t >? SILENCE_DURATION) eqn:El; simpl.
    + destruct (currentChunks s) as [|c cs] eqn:Ch; simpl.
      * rewrite emits_unchanged_recorder by reflexivity. split; [discriminate|].
        intros (?&?&?&?&_&_&_&_&_&_&_&_&_&C). congruence.
      * rewrite emits_stopped_recorder by reflexivity.
        split.
        -- intros (r & Hr & Hi & Hq). exists node, array, r, t.
           repeat split; auto; try discriminate.
           apply Z.gtb_lt in El. lia.
        -- intros (n&a&r&t'&_&_&Hr&Hi&Hq&_). exists r. auto.
    + rewrite emits_unchanged_recorder by reflexivity. split; [discriminate|].
      intros (n&a&r&t'&_&_&_&_&_&_&[= <-]&_&G&_).
      rewrite Z.gtb_ltb in El. apply Z.ltb_ge in El. lia.
  - unfold detectSilence. cbn [analyser dataArray set_currentChunks].
    destruct (analyser s); [|apply emits_unchanged_recorder; reflexivity].
    destruct (dataArray s); [|apply emits_unchanged_recorder; reflexivity].
    cbv zeta. cbn [silenceStart set_dataArray currentChunks mediaRecorder].
    destruct (_ <? _)%float; [|apply emits_unchanged_recorder; reflexivity].
    destruct (Js.falsy_number _); [apply emits_unchanged_recorder; reflexivity|].
    rewrite andb_false_r. apply emits_unchanged_recorder; reflexivity.
Qed.
End DetectSilence.

(** ** TranscriptionApp: the recorder and the requests within a session *)

Section Session.
Import TranscriptionApp.
Context {M : Js.Math}.

Lemma capturing_stop_pending_of_recorder s s' :
  mediaRecorder s' = mediaRecorder s ->
  capturing s' = capturing s /\ stop_pending s' = stop_pending s.
Proof. intros E. unfold capturing, stop_pending. rewrite E. auto. Qed.

(** What [detectSilence] can do to the recorder: leave it, or stop it. *)
Lemma detectSilence_recorder now signal s :
  mediaRecorder (detectSilence now signal s) = mediaRecorder s
  \/ mediaRecorder (detectSilence now signal s)
     = option_map MediaRecorder.stop (mediaRecorder s).
Proof.
  unfold detectSilence.
  destruct (analyser s); [|auto]. destruct (dataArray s); [|auto].
  cbv zeta. destruct (_ <? _)%float; [|auto].
  destruct (Js.falsy_number _); [auto|].
  destruct (_ && _); auto.
Qed.

Lemma stop_idle r :
  MediaRecorder.is_inactive r = true -> MediaRecorder.stop r = r.
Proof. intros H. unfold MediaRecorder.stop. rewrite H. reflexivity. Qed.

Lemma stop_active r :
  MediaRecorder.is_inactive r = false ->
  MediaRecorder.is_inactive (MediaRecorder.stop r) = true
  /\ MediaRecorder.stop_queued (MediaRecorder.stop r) = true.
Proof. intros H. unfold MediaRecorder.stop. rewrite H. auto. Qed.

Lemma not_capturing_stop s :
  capturing s = false ->
  option_map MediaRecorder.stop (mediaRecorder s) = mediaRecorder s.
Proof.
  unfold capturing. destruct (mediaRecorder s) as [r|]; [|reflexivity].
  intros H. apply negb_false_iff in H. simpl. rewrite stop_idle; auto.
Qed.

Lemma detectSilence_paused now signal s :
  capturing s = false ->
  mediaRecorder (detectSilence now signal s) = mediaRecorder s.
Proof.
  intros H. destruct (detectSilence_recorder now signal s) as [E|E]; [exact E|].
  rewrite E. apply not_capturing_stop, H.
Qed.

Lemma stopRecording_paused s : capturing s = false -> stopRecording s = s.
Proof.
  unfold capturing, stopRecording.
  destruct (mediaRecorder s) as [r|]; [|reflexivity].
  intros ->. reflexivity.
Qed.

(** While the recorder is paused, no event other than the settlement of a
    request or a new start makes it capture again, and none emits. *)
Lemma paused_step e w w' :
  is_start e = false -> is_settled e = false ->
  capturing (app w) = false ->
  step e w = Some w' ->
  capturing (app w') = false /\ emits (app w) (app w') = false.
Proof.
  intros Hs Hd Hc St.
  destruct e as [stream now signal| |now signal|data|k r]; try discriminate;
    simpl in St.
  - injection St as <-. simpl. rewrite stopRecording_paused by exact Hc.
    split; [exact Hc|]. apply emits_unchanged_recorder. reflexivity.
  - injection St as <-. simpl.
    pose proof (detectSilence_paused now signal _ Hc) as E.
    split; [|apply emits_unchanged_recorder, E].
    apply capturing_stop_pending_of_recorder in E. destruct E as [-> _]. exact Hc.
  - destruct (stop_pending (app w)) eqn:P; [|discriminate].
    injection St as <-. simpl. unfold emits, capturing, stop_pending in *. simpl.
    destruct (mediaRecorder (app w)) as [r|]; simpl in *; [|discriminate].
    rewrite P. simpl. auto.
Qed.

Definition quiet (e : Event) : bool := negb (is_start e || is_settled e).

Lemma paused_emits_nothing evs : forall w,
  forallb quiet evs = true ->
  capturing (app w) = false ->
  emissions evs w = 0%nat.
Proof.
  induction evs as [|e evs IH]; intros w Hq Hc; simpl; [reflexivity|].
  simpl in Hq. apply andb_prop in Hq. destruct Hq as [He Hq].
  unfold quiet in He. apply negb_true_iff, orb_false_elim in He.
  destruct He as [Hs Hd].
  destruct (step e w) as [w'|] eqn:St; [|reflexivity].
  destruct (paused_step e w w' Hs Hd Hc St) as [Hc' ->].
  simpl. apply IH; assumption.
Qed.

Lemma emits_pauses s s' :
  mediaRecorder s' = mediaRecorder s
  \/ mediaRecorder s' = option_map MediaRecorder.stop (mediaRecorder s) ->
  emits s s' = true -> capturing s' = false.
Proof.
  intros [E|E] H.
  - rewrite emits_unchanged_recorder in H by exact E. discriminate.
  - apply (emits_stopped_recorder s s' E) in H. destruct H as (r & Hr & Hi & _).
    unfold capturing. rewrite E, Hr. simpl.
    destruct (stop_active r Hi) as [-> _]. reflexivity.
Qed.

(** C5 (amended).  In TranscriptionApp, once a call of [detectSilence]
    has emitted a segment, nothing emits a further one, whatever the
    frames and whether or not speech resumes, as long as no transcription
    request settles and recording is not started anew. *)
Theorem one_emission_until_the_request_settles now signal w evs :
  emits (app w) (detectSilence now signal (app w)) = true ->
  forallb quiet evs = true ->
  emissions evs {| app := detectSilence now signal (app w);
                   in_flight := in_flight w |} = 0%nat.
Proof.
  intros He Hq. apply paused_emits_nothing; [exact Hq|]. simpl.
  apply (emits_pauses (app w)); [apply detectSilence_recorder|exact He].
Qed.

End Session.

(** ** TranscriptionApp: the runs of the page *)

Section PageRuns.
Import TranscriptionApp TranscriptionAppRuns.
Context {M : Js.Math}.

Local Opaque new_Float32Array.

















Local Transparent new_Float32Array.

End PageRuns.

(** ** AudioTranscription: the runs of the page *)

Section AudioPageRuns.
Import AudioTranscription AudioTranscriptionRuns.
Context {M : Js.Math}.





End AudioPageRuns.

(** ** The level of a frame and its classification *)

Section Classification.
Context {M : Js.Math}.

Lemma level_of_zero : level 0%float = neg_infinity.
Proof. unfold level. rewrite Js.log10_zero by reflexivity. reflexivity. Qed.

Lemma silence_frame_level : decibels (new_Float32Array 1024) = neg_infinity.
Proof.
  unfold decibels.
  replace (rms (new_Float32Array 1024)) with 0%float by (vm_compute; reflexivity).
  apply level_of_zero.
Qed.

Lemma TranscriptionApp_heard_speech now signal node array s :
  TranscriptionApp.heard_speech
    (TranscriptionApp.detectSilence now signal
       (TranscriptionApp.set_dataArray (Some array)
          (TranscriptionApp.set_analyser (Some node) s)))
  = negb (decibels (AnalyserNode.getFloatTimeDomainData node signal array)
            <? TranscriptionApp.VAD_THRESHOLD)%float.
Proof.
  unfold TranscriptionApp.detectSilence, TranscriptionApp.heard_speech.
  destruct s as [rec st tr ac mr ctx an da start chunks]. simpl.
  destruct (decibels (AnalyserNode.getFloatTimeDomainData node signal array)
              <? TranscriptionApp.VAD_THRESHOLD)%float; [|reflexivity].
  destruct start as [t|]; simpl; [|reflexivity].
  destruct (t =? 0); [reflexivity|].
  destruct (_ && _); reflexivity.
Qed.

Lemma AudioTranscription_heard_speech signal w :
  (0 < AudioTranscription.next_timer w)%nat ->
  AudioTranscription.heard_speech (AudioTranscription.checkAudioLevel true signal w)
  = negb (decibels (AudioTranscription.read_frame signal)
            <? AudioTranscription.SILENCE_THRESHOLD)%float.
Proof.
  intros Hn.
  unfold AudioTranscription.checkAudioLevel, AudioTranscription.heard_speech.
  cbn [negb]. cbv zeta.
  destruct (decibels (AudioTranscription.read_frame signal)
              <? AudioTranscription.SILENCE_THRESHOLD)%float; cbn [negb];
    destruct (AudioTranscription.falsy_handle
                (AudioTranscription.silenceTimeout (AudioTranscription.app w)))
      eqn:F; simpl; try exact F; try reflexivity.
  apply Nat.eqb_neq. lia.
Qed.

(** C8 (amended).  The level of a frame is 20 log10 of its root mean
    square; a root mean square of zero gives minus infinity.  A frame
    whose level is a number is taken for speech exactly when that level is
    at least the threshold; the threshold is -45 dB in TranscriptionApp and
    -50 dB in AudioTranscription (whose timer handles are positive).  The
    all-zero frame is taken for silence. *)
Theorem frames_are_classified_against_the_threshold now signal node array s w :
  is_nan (decibels (AnalyserNode.getFloatTimeDomainData node signal array)) = false ->
  is_nan (decibels (AudioTranscription.read_frame signal)) = false ->
  (0 < AudioTranscription.next_timer w)%nat ->
  let frame := AnalyserNode.getFloatTimeDomainData node signal array in
  let heard :=
    TranscriptionApp.heard_speech
      (TranscriptionApp.detectSilence now signal
         (TranscriptionApp.set_dataArray (Some array)
            (TranscriptionApp.set_analyser (Some node) s))) in
  let heard_zeros :=
    TranscriptionApp.heard_speech
      (TranscriptionApp.detectSilence now (new_Float32Array 1024)
         (TranscriptionApp.set_dataArray (Some (new_Float32Array 1024))
            (TranscriptionApp.set_analyser
               (Some {| AnalyserNode.fftSize := 1024 |}) s))) in
  decibels frame = (20 * Js.Math_log10 (rms frame))%float
  /\ level 0%float = neg_infinity
  /\ TranscriptionApp.VAD_THRESHOLD = (-45)%float
  /\ heard = (TranscriptionApp.VAD_THRESHOLD <=? decibels frame)%float
  /\ heard_zeros = false
  /\ AudioTranscription.SILENCE_THRESHOLD = (-50)%float
  /\ AudioTranscription.heard_speech
       (AudioTranscription.checkAudioLevel true signal w)
     = (AudioTranscription.SILENCE_THRESHOLD
          <=? decibels (AudioTranscription.read_frame signal))%float.
Proof.
  intros Nt Na Hn frame heard heard_zeros.
  split; [reflexivity|]. split; [apply level_of_zero|].
  split; [reflexivity|]. split.
  { subst heard frame. rewrite TranscriptionApp_heard_speech.
    rewrite not_ltb_is_leb_or_nan by reflexivity.
    rewrite Nt. apply orb_false_r. }
  split.
  { subst heard_zeros. rewrite TranscriptionApp_heard_speech.
    replace (AnalyserNode.getFloatTimeDomainData _ _ _)
      with (new_Float32Array 1024) by (vm_compute; reflexivity).
    rewrite silence_frame_level. reflexivity. }
  split; [reflexivity|].
  rewrite (AudioTranscription_heard_speech signal w Hn).
  rewrite not_ltb_is_leb_or_nan by reflexivity. rewrite Na. apply orb_false_r.
Qed.

End Classification.

Section Classified.
Import Examples.

(** C8 (counterexample).  A frame at about -48.16 dB, a level that is a
    number below -45 dB, is taken for speech by AudioTranscription. *)
Lemma faint_frame_is_speech_for_AudioTranscription :
  (* about -48.16 dB: below -45, above -50 *)
  (TranscriptionApp.VAD_THRESHOLD <=? decibels faint_frame)%float = false
  /\ is_nan (decibels faint_frame) = false
  /\ AudioTranscription.heard_speech
       (AudioTranscription.checkAudioLevel true faint_frame
          AudioTranscription.start_world) = true.
Proof. repeat split; vm_compute; reflexivity. Qed.

Lemma frames_are_classified_witness :
  is_nan (decibels (AnalyserNode.getFloatTimeDomainData
                      {| AnalyserNode.fftSize := 1024 |} loud_frame
                      (new_Float32Array 1024))) = false
  /\ is_nan (decibels (AudioTranscription.read_frame loud_frame)) = false
  /\ (0 < AudioTranscription.next_timer AudioTranscription.start_world)%nat
  /\ TranscriptionApp.heard_speech
       (TranscriptionApp.detectSilence 0 loud_frame
          (TranscriptionApp.set_dataArray (Some (new_Float32Array 1024))
             (TranscriptionApp.set_analyser
                (Some {| AnalyserNode.fftSize := 1024 |})
                TranscriptionApp.initial)))
     = (TranscriptionApp.VAD_THRESHOLD
          <=? decibels (AnalyserNode.getFloatTimeDomainData
                          {| AnalyserNode.fftSize := 1024 |} loud_frame
                          (new_Float32Array 1024)))%float
  /\ AudioTranscription.heard_speech
       (AudioTranscription.checkAudioLevel true loud_frame
          AudioTranscription.start_world)
     = (AudioTranscription.SILENCE_THRESHOLD
          <=? decibels (AudioTranscription.read_frame loud_frame))%float.
Proof.
  assert (Nt : is_nan (decibels (AnalyserNode.getFloatTimeDomainData
                                   {| AnalyserNode.fftSize := 1024 |} loud_frame
                                   (new_Float32Array 1024))) = false)
    by (vm_compute; reflexivity).
  assert (Na : is_nan (decibels (AudioTranscription.read_frame loud_frame)) = false)
    by (vm_compute; reflexivity).
  assert (H : (0 < AudioTranscription.next_timer AudioTranscription.start_world)%nat)
    by (simpl; lia).
  split; [exact Nt|]. split; [exact Na|]. split; [exact H|].
  destruct (frames_are_classified_against_the_threshold 0 loud_frame
              {| AnalyserNode.fftSize := 1024 |} (new_Float32Array 1024)
              TranscriptionApp.initial AudioTranscription.start_world Nt Na H)
    as (_ & _ & _ & H1 & _ & _ & H2).
  split; [exact H1|exact H2].
Defined.

End Classified.

(** ** Stopping, failing and starting *)

Section Stopping.
Context {M : Js.Math}.

(** C10.  In TranscriptionApp, [stopRecording] with no recorder, or with
    a recorder that is inactive, leaves the whole component state as it is. *)
Theorem stopRecording_without_active_recorder_changes_nothing
    (s : TranscriptionApp.State) :
  TranscriptionApp.mediaRecorder s = None
  \/ (exists r, TranscriptionApp.mediaRecorder s = Some r
                /\ MediaRecorder.state r = MediaRecorder.inactive) ->
  TranscriptionApp.stopRecording s = s.
Proof.
  intros [N|(r & R & I)]; unfold TranscriptionApp.stopRecording.
  - rewrite N. reflexivity.
  - rewrite R. unfold MediaRecorder.is_inactive. rewrite I. reflexivity.
Qed.

Import TranscriptionApp.

(** C6 (amended).  In TranscriptionApp, a click on Stop while the
    recorder is active sets the status to idle and stops the recorder;
    when the recorder then delivers its data, the accumulated chunks and
    that data are posted as one segment. *)
Theorem stopRecording_submits_the_trailing_audio w r data :
  mediaRecorder (app w) = Some r ->
  MediaRecorder.is_inactive r = false ->
  exists w',
    run [ClickStop; RecorderStopped data] w = Some w'
    /\ status (stopRecording (app w)) = idle
    /\ in_flight w'
       = in_flight w
           ++ [transcription_form (new_Blob (currentChunks (app w) ++ [data]))]
    /\ isRecording (app w') = false
    /\ capturing (app w') = false.
Proof.
  intros R I. simpl. unfold stopRecording. rewrite R, I. simpl.
  unfold stop_pending. simpl.
  destruct (stop_active r I) as [Hi Hq]. rewrite Hq.
  eexists. split; [reflexivity|]. simpl.
  repeat split. unfold capturing. simpl.
  unfold MediaRecorder.is_inactive in *. simpl.
  destruct (MediaRecorder.state (MediaRecorder.stop r)); try discriminate.
  reflexivity.
Qed.

End Stopping.

Section Failures.
Context {M : Js.Math}.




End Failures.

Section Starting.
Context {M : Js.Math}.

(** C7 (amended).  A start from a component that is not recording
    creates a new recorder, which captures, and a new running audio
    context (in TranscriptionApp also a new analyser and buffer), sets
    [isRecording] (in TranscriptionApp also the status; in
    AudioTranscription it clears the error message) and changes nothing
    else: the accumulator, the silence mark, the transcript, the saved
    audio, the requests in flight and the timers keep what they held.  A
    start that is refused the microphone only records the error. *)
Theorem startRecording_replaces_the_devices_and_keeps_the_rest now signal message
    (s : TranscriptionApp.State) (w : AudioTranscription.World) :
  TranscriptionApp.isRecording s = false ->
  AudioTranscription.isRecording (AudioTranscription.app w) = false ->
  TranscriptionApp.startRecording (Some tt) now signal s
  = {| TranscriptionApp.isRecording := true;
       TranscriptionApp.status := TranscriptionApp.recording;
       TranscriptionApp.transcriptions := TranscriptionApp.transcriptions s;
       TranscriptionApp.audioChunks := TranscriptionApp.audioChunks s;
       TranscriptionApp.mediaRecorder :=
         Some {| MediaRecorder.state := MediaRecorder.recording;
                 MediaRecorder.stream_active := true;
                 MediaRecorder.stop_queued := false |};
       TranscriptionApp.audioContext := Some AudioContext.running;
       TranscriptionApp.analyser := Some {| AnalyserNode.fftSize := 1024 |};
       TranscriptionApp.dataArray := Some (new_Float32Array 1024);
       TranscriptionApp.silenceStart := TranscriptionApp.silenceStart s;
       TranscriptionApp.currentChunks := TranscriptionApp.currentChunks s |}
  /\ TranscriptionApp.startRecording None now signal s
     = TranscriptionApp.set_status TranscriptionApp.error s
  /\ AudioTranscription.startRecording AudioTranscription.Granted signal w
     = {| AudioTranscription.app :=
            {| AudioTranscription.isRecording := true;
               AudioTranscription.transcription :=
                 AudioTranscription.transcription (AudioTranscription.app w);
               AudioTranscription.error := None;
               AudioTranscription.mediaRecorder :=
                 Some {| MediaRecorder.state := MediaRecorder.recording;
                         MediaRecorder.stream_active := true;
                         MediaRecorder.stop_queued := false |};
               AudioTranscription.silenceTimeout :=
                 AudioTranscription.silenceTimeout (AudioTranscription.app w);
               AudioTranscription.audioContext := Some AudioContext.running;
               AudioTranscription.audioQueue :=
                 AudioTranscription.audioQueue (AudioTranscription.app w) |};
          AudioTranscription.in_flight := AudioTranscription.in_flight w;
          AudioTranscription.timers := AudioTranscription.timers w;
          AudioTranscription.next_timer := AudioTranscription.next_timer w |}
  /\ AudioTranscription.startRecording (AudioTranscription.Denied message) signal w
     = AudioTranscription.with_app
         (AudioTranscription.set_error
            (Some ("Microphone access error: " ++ message)%string)
            (AudioTranscription.app w)) w.
Proof.
  intros Ht Ha.
  destruct s as [rec st tr ac mr ctx an da start chunks].
  destruct w as [[rec' tr' er mr' st' ctx' q] fl ts nt].
  cbn in Ht, Ha. subst.
  repeat split.
Qed.

End Starting.

(** ** The components on concrete traces *)

(** The world a trace leads to (the starting world when the trace cannot run). *)
Definition world_after {W E : Type} (run : list E -> W -> option W)
    (evs : list E) (w : W) : W :=
  match run evs w with
  | Some w' => w'
  | None => w
  end.

Section Runs.
Import Examples TranscriptionApp TranscriptionAppRuns.

Definition just_started : World :=
  Eval vm_compute in
    world_after run [ClickStart (Some tt) 0 silence_frame] start_world.


Definition between_sessions : World :=
  Eval vm_compute in world_after run first_session start_world.

Definition second_session : World :=
  Eval vm_compute in
    world_after run (first_session ++ [second_start]) start_world.

Definition in_silence : World :=
  Eval vm_compute in world_after run into_silence start_world.



(** C7 (counterexample).  A second session starts with the chunk, the
    audio and the text the first one left. *)
Lemma second_session_starts_with_leftovers :
  run first_session start_world = Some between_sessions
  /\ isRecording (app between_sessions) = false
  /\ step second_start between_sessions = Some second_session
  /\ isRecording (app second_session) = true
  /\ currentChunks (app second_session) = [blob1]
  /\ audioChunks (app second_session) = [blob1]
  /\ transcriptions (app second_session) = [Js.str "hello"%string].
Proof. repeat split; vm_compute; reflexivity. Qed.

(** C4 (counterexample).  Speech, then silence from 1000 ms on, with a
    chunk in the accumulator: at 2000 ms the silence has lasted
    [SILENCE_DURATION] and nothing is emitted. *)
Lemma no_emission_after_exactly_SILENCE_DURATION :
  run into_silence start_world = Some in_silence
  /\ silenceStart (app in_silence) = Some 1000
  /\ currentChunks (app in_silence) = [blob1]
  /\ capturing (app in_silence) = true
  /\ spec_finalizes 2000 (silenceStart (app in_silence))
       (currentChunks (app in_silence)) = true
  /\ emits (app in_silence)
       (detectSilence 2000 silence_frame (app in_silence)) = false.
Proof. repeat split; vm_compute; reflexivity. Qed.

(** C5 (counterexample).  Silence lasts from 1000 ms on; a segment is
    emitted at 2001 ms, its request settles, and the silent frame at
    2050 ms emits a second one. *)
Lemma two_emissions_in_one_silence_episode :
  run into_silence start_world = Some in_silence
  /\ emissions
       [ AnimationFrame 2001 silence_frame; RecorderStopped blob2;
         Settled 0 hello; AnimationFrame 2050 silence_frame ]
       in_silence = 2%nat.
Proof. split; vm_compute; reflexivity. Qed.

Lemma one_emission_witness :
  emits (app in_silence) (detectSilence 2001 silence_frame (app in_silence)) = true
  /\ forallb quiet
       [ AnimationFrame 2010 silence_frame; RecorderStopped blob2;
         AnimationFrame 2020 silence_frame; ClickStop ] = true
  /\ emissions
       [ AnimationFrame 2010 silence_frame; RecorderStopped blob2;
         AnimationFrame 2020 silence_frame; ClickStop ]
       {| app := detectSilence 2001 silence_frame (app in_silence);
          in_flight := in_flight in_silence |} = 0%nat.
Proof.
  assert (E : emits (app in_silence)
                (detectSilence 2001 silence_frame (app in_silence)) = true)
    by (vm_compute; reflexivity).
  assert (Q : forallb quiet
                [ AnimationFrame 2010 silence_frame; RecorderStopped blob2;
                  AnimationFrame 2020 silence_frame; ClickStop ] = true)
    by (vm_compute; reflexivity).
  split; [exact E|]. split; [exact Q|].
  exact (one_emission_until_the_request_settles 2001 silence_frame in_silence _ E Q).
Defined.


Definition live_recorder : MediaRecorder.t :=
  {| MediaRecorder.state := MediaRecorder.recording;
     MediaRecorder.stream_active := true;
     MediaRecorder.stop_queued := false |}.

Lemma stopRecording_submits_witness :
  mediaRecorder (app just_started) = Some live_recorder
  /\ MediaRecorder.is_inactive live_recorder = false
  /\ exists w',
       run [ClickStop; RecorderStopped blob1] just_started = Some w'
       /\ status (stopRecording (app just_started)) = idle
       /\ in_flight w'
          = in_flight just_started
              ++ [transcription_form
                    (new_Blob (currentChunks (app just_started) ++ [blob1]))]
       /\ isRecording (app w') = false
       /\ capturing (app w') = false.
Proof.
  assert (R : mediaRecorder (app just_started) = Some live_recorder)
    by (vm_compute; reflexivity).
  assert (I : MediaRecorder.is_inactive live_recorder = false) by reflexivity.
  split; [exact R|]. split; [exact I|].
  exact (stopRecording_submits_the_trailing_audio just_started live_recorder
           blob1 R I).
Defined.

Lemma stopRecording_no_op_witness :
  (mediaRecorder initial = None
   \/ exists r, mediaRecorder initial = Some r
                /\ MediaRecorder.state r = MediaRecorder.inactive)
  /\ stopRecording initial = initial.
Proof.
  assert (H : mediaRecorder initial = None
              \/ exists r, mediaRecorder initial = Some r
                           /\ MediaRecorder.state r = MediaRecorder.inactive)
    by (left; reflexivity).
  split; [exact H|].
  exact (stopRecording_without_active_recorder_changes_nothing initial H).
Defined.

End Runs.

Section AudioRuns.
Import Examples AudioTranscription AudioTranscriptionRuns.

Definition segment_posted : World :=
  Eval vm_compute in world_after run one_segment_posted start_world.

Definition stopped : World :=
  Eval vm_compute in world_after run stopped_mid_speech start_world.


(** C6 (counterexample).  In AudioTranscription a click on Stop in the
    middle of speech posts nothing: the audio stays in the queue, no
    request is in flight and no timer is armed. *)
Lemma stop_leaves_the_trailing_audio_in_the_queue :
  run stopped_mid_speech start_world = Some stopped
  /\ isRecording (app stopped) = false
  /\ capturing (app stopped) = false
  /\ audioQueue (app stopped) = [blob1; blob2]
  /\ in_flight stopped = []
  /\ timers stopped = [].
Proof. repeat split; vm_compute; reflexivity. Qed.



Lemma startRecording_witness :
  TranscriptionApp.isRecording TranscriptionApp.initial = false
  /\ isRecording (app start_world) = false
  /\ TranscriptionApp.capturing
       (TranscriptionApp.startRecording (Some tt) 0 silence_frame
          TranscriptionApp.initial) = true
  /\ TranscriptionApp.currentChunks
       (TranscriptionApp.startRecording (Some tt) 0 silence_frame
          TranscriptionApp.initial)
     = TranscriptionApp.currentChunks TranscriptionApp.initial
  /\ capturing (app (startRecording Granted silence_frame start_world)) = true
  /\ error (app (startRecording Granted silence_frame start_world)) = None
  /\ audioQueue (app (startRecording Granted silence_frame start_world))
     = audioQueue (app start_world).
Proof.
  destruct (startRecording_replaces_the_devices_and_keeps_the_rest
              0 silence_frame "Permission denied"%string TranscriptionApp.initial start_world
              eq_refl eq_refl) as (H1 & _ & H2 & _).
  rewrite H1, H2. repeat split.
Defined.

End AudioRuns.

(* ================================================================= *)
(** * Part III: further properties of the components *)
(* ================================================================= *)

(** ** TranscriptionApp: saved audio, sessions stopped by hand *)

Section SavedAudio.
Import TranscriptionApp TranscriptionAppAudio.
Context {M : Js.Math}.

Local Opaque new_Float32Array.

Lemma detectSilence_frame now signal s :
  isRecording (detectSilence now signal s) = isRecording s
  /\ status (detectSilence now signal s) = status s
  /\ transcriptions (detectSilence now signal s) = transcriptions s
  /\ audioChunks (detectSilence now signal s) = audioChunks s
  /\ audioContext (detectSilence now signal s) = audioContext s
  /\ analyser (detectSilence now signal s) = analyser s
  /\ (currentChunks (detectSilence now signal s) = currentChunks s
      \/ currentChunks (detectSilence now signal s) = []).
Proof.
  unfold detectSilence.
  destruct (analyser s) eqn:An; [|repeat split; auto].
  destruct (dataArray s) eqn:Da; [|repeat split; auto].
  cbv zeta.
  repeat match goal with
         | |- context [if ?c then _ else _] => destruct c
         end; repeat split; auto.
Qed.

(** [detectSilence] reads and writes the detector's refs only: recording
    flag, status, transcript, saved audio, audio context and analyser are
    never touched, and the accumulator is kept or emptied. *)
Theorem detectSilence_leaves_the_rest now signal s :
  isRecording (detectSilence now signal s) = isRecording s
  /\ status (detectSilence now signal s) = status s
  /\ transcriptions (detectSilence now signal s) = transcriptions s
  /\ audioChunks (detectSilence now signal s) = audioChunks s
  /\ audioContext (detectSilence now signal s) = audioContext s
  /\ analyser (detectSilence now signal s) = analyser s
  /\ (currentChunks (detectSilence now signal s) = currentChunks s
      \/ currentChunks (detectSilence now signal s) = []).
Proof. exact (detectSilence_frame now signal s). Qed.

Lemma step_audioChunks e w w' :
  step e w = Some w' ->
  audioChunks (app w') = audioChunks (app w) ++ map form_file (step_posts e w).
Proof.
  intros St.
  destruct e as [stream now signal| |now signal|data|k r]; simpl in St.
  - injection St as <-. cbn [app step_posts map]. rewrite app_nil_r.
    unfold startRecording, checkSilence. destruct stream; [|reflexivity].
    cbv zeta. cbn [MediaRecorder.start MediaRecorder.create MediaRecorder.is_inactive
                   MediaRecorder.state MediaRecorder.stream_active andb].
    destruct (isRecording (app w)); [|reflexivity].
    match goal with
    | |- audioChunks (detectSilence _ _ ?s0) = _ =>
        destruct (detectSilence_frame now signal s0) as (_ & _ & _ & H & _)
    end.
    exact H.
  - injection St as <-. simpl. rewrite app_nil_r.
    unfold stopRecording. destruct (mediaRecorder (app w)); [|reflexivity].
    destruct (negb _); reflexivity.
  - injection St as <-. simpl. rewrite app_nil_r.
    apply detectSilence_frame.
  - destruct (stop_pending (app w)) eqn:P; [|discriminate].
    injection St as <-. unfold step_posts. rewrite P. reflexivity.
  - destruct (k <? length (in_flight w))%nat; [|discriminate].
    injection St as <-. simpl. rewrite app_nil_r.
    unfold onstop_settled, restart_recorder.
    destruct r as [m|st [m|t]]; simpl;
      destruct (mediaRecorder (app w)) as [rec|]; try reflexivity;
      destruct (MediaRecorder.start rec); reflexivity.
Qed.

Lemma run_audioChunks evs : forall w w',
  run evs w = Some w' ->
  audioChunks (app w') = audioChunks (app w) ++ map form_file (posted evs w).
Proof.
  induction evs as [|e evs IH]; intros w w' R; simpl in *.
  - injection R as <-. rewrite app_nil_r. reflexivity.
  - destruct (step e w) as [w1|] eqn:St; [|discriminate].
    rewrite (IH w1 w' R), (step_audioChunks e w w1 St), map_app, app_assoc.
    reflexivity.
Qed.

(** Whatever happens, the audio kept for saving is the audio that was
    posted, segment by segment and in the order of posting; the saved file
    is its concatenation. *)
Theorem saved_audio_is_the_posted_audio evs w iso :
  run evs start_world = Some w ->
  audioChunks (app w) = map form_file (posted evs start_world)
  /\ saveAudio iso (app w)
     = match posted evs start_world with
       | [] => None
       | _ :: _ =>
           Some (("transcription-" ++ iso ++ ".wav")%string,
                 List.concat (map form_file (posted evs start_world)))
       end.
Proof.
  intros R. apply run_audioChunks in R. simpl in R.
  split; [exact R|]. unfold saveAudio, new_Blob. rewrite R.
  destruct (posted evs start_world); reflexivity.
Qed.

Lemma manual_session_run x w :
  in_flight w = [] ->
  isRecording (app w) = false ->
  exists w',
    run (manual_session x) w = Some w'
    /\ in_flight w' = []
    /\ isRecording (app w') = false
    /\ capturing (app w') = false
    /\ status (app w') = recording
    /\ currentChunks (app w') = currentChunks (app w) ++ [session_data x]
    /\ audioChunks (app w')
       = audioChunks (app w) ++ [new_Blob (currentChunks (app w) ++ [session_data x])].
Proof.
  destruct x as [[[now signal] data] r]. intros F I.
  destruct w as [[rec st tr ac mr ctx an da start chunks] fl].
  cbn [app in_flight isRecording] in F, I. subst.
  destruct r as [m|st' [m|t]];
    cbv -[new_Float32Array List.app List.concat];
    (eexists; split; [reflexivity|]); repeat split.
Qed.

(** Sessions that are stopped by hand never empty the accumulator: each
    one posts the audio of all of them so far. *)
Theorem manual_sessions_post_all_earlier_audio xs : forall w,
  in_flight w = [] ->
  isRecording (app w) = false ->
  exists w',
    run (flat_map manual_session xs) w = Some w'
    /\ currentChunks (app w') = currentChunks (app w) ++ map session_data xs
    /\ audioChunks (app w')
       = audioChunks (app w)
           ++ growing_blobs (currentChunks (app w)) (map session_data xs).
Proof.
  induction xs as [|x xs IH]; intros w F I.
  - exists w. simpl. rewrite !app_nil_r. auto.
  - destruct (manual_session_run x w F I) as (w1 & R1 & F1 & I1 & _ & _ & C1 & A1).
    destruct (IH w1 F1 I1) as (w' & R & C & A).
    exists w'. split; [|split].
    + cbn [flat_map].
      assert (G : forall evs1 evs2 a b c,
                 run evs1 a = Some b -> run evs2 b = Some c ->
                 run (evs1 ++ evs2) a = Some c).
      { induction evs1 as [|e evs1 IH1]; intros evs2 a b c Ha Hb; simpl in *.
        - injection Ha as <-. exact Hb.
        - destruct (step e a); [|discriminate]. eapply IH1; eauto. }
      exact (G _ _ _ _ _ R1 R).
    + rewrite C, C1. simpl. rewrite <- app_assoc. reflexivity.
    + rewrite A, A1, C1. simpl. rewrite <- app_assoc. reflexivity.
Qed.

(** After a session has been stopped by hand and its reply has arrived,
    the status cell says recording although nothing is recorded. *)
Theorem status_says_recording_after_a_manual_stop w data r :
  capturing (app w) = true ->
  in_flight w = [] ->
  exists w',
    run [ClickStop; RecorderStopped data; Settled 0 r] w = Some w'
    /\ status (app w') = recording
    /\ isRecording (app w') = false
    /\ capturing (app w') = false.
Proof.
  intros C F.
  destruct w as [[rec st tr ac mr ctx an da start chunks] fl].
  cbn [app in_flight] in C, F. subst.
  destruct mr as [[[] sa sq]|]; try discriminate;
    destruct r as [m|st' [m|t]];
    cbv -[List.app List.concat];
    (eexists; split; [reflexivity|]); repeat split.
Qed.

Local Transparent new_Float32Array.

End SavedAudio.

(** ** RealTimeTranscriptionVAD: captions and counts *)

Section VADPage.
Import RealTimeTranscriptionVAD VADView.

Variable encodeWAV : list float -> ArrayBuffer.
Variable arrayBufferToBase64 : ArrayBuffer -> string.

Let run := run encodeWAV arrayBufferToBase64.
Let step := step encodeWAV arrayBufferToBase64.
Let audioURL_of := audioURL_of encodeWAV arrayBufferToBase64.

Lemma combine_snoc {A B : Type} (l1 : list A) (l2 : list B) a b :
  length l1 = length l2 ->
  combine (l1 ++ [a]) (l2 ++ [b]) = combine l1 l2 ++ [(a, b)].
Proof.
  revert l2. induction l1 as [|x l1 IH]; intros [|y l2] H; simpl in *;
    try discriminate; [reflexivity|].
  rewrite IH by lia. reflexivity.
Qed.

Lemma captions_of_reversed (l : list string) : forall k,
  map (fun p => (snd p, (k + length l - fst p)%nat))
      (combine (seq 0 (length l)) (rev l))
  = rev (combine l (seq (S k) (length l))).
Proof.
  induction l as [|x l IH]; intros k; [reflexivity|].
  cbn [length rev]. rewrite seq_S. cbn [plus].
  rewrite combine_snoc by (rewrite length_seq, length_rev; reflexivity).
  rewrite map_app. cbn [map fst snd seq combine rev].
  f_equal.
  - rewrite <- (IH (S k)). apply map_ext. intros [i y]. cbn [fst snd].
    f_equal. lia.
  - f_equal. f_equal. lia.
Qed.

(** Every clip is shown with its capture number: the clip of the [k]-th
    utterance carries the caption [k], also after later clips have been
    put in front of it. *)
Theorem clips_are_captioned_with_their_capture_number evs w :
  run evs start_world = Some w ->
  clip_captions (react w)
  = rev (combine (map audioURL_of (clips evs)) (seq 1 (length (clips evs)))).
Proof.
  intros R.
  destruct (run_lists encodeWAV arrayBufferToBase64 evs _ _ R) as [A _].
  simpl in A. rewrite app_nil_r in A.
  unfold clip_captions. rewrite A.
  rewrite length_rev, length_map.
  rewrite <- (length_map audioURL_of (clips evs)).
  apply (captions_of_reversed (map audioURL_of (clips evs)) 0).
Qed.

Lemma settled_removes_one k (l : list (nat * FormData)) :
  existsb (is_request k) l = true ->
  (length (filter (fun p => negb (is_request k p)) l) < length l)%nat.
Proof.
  induction l as [|p l IH]; simpl; [discriminate|].
  pose proof (filter_length_le (fun p => negb (is_request k p)) l) as L.
  destruct (is_request k p); simpl; intros H; [lia|].
  apply IH in H. lia.
Qed.

Lemma step_keeps_count e w w' :
  step e w = Some w' ->
  (length (transcription (react w)) + length (in_flight w)
   <= length (audioList (react w)))%nat ->
  (length (transcription (react w')) + length (in_flight w')
   <= length (audioList (react w')))%nat.
Proof.
  intros St I. destruct e as [audio|k r]; simpl in St.
  - injection St as <-. simpl. rewrite length_app. simpl. lia.
  - destruct (existsb (is_request k) (in_flight w)) eqn:E; [|discriminate].
    injection St as <-. simpl.
    pose proof (settled_removes_one k _ E) as L.
    destruct (settled_appends r (react w)) as [Et Ea]. rewrite Et, Ea.
    rewrite length_app. destruct (axios_post r); simpl; lia.
Qed.

(** An utterance gives at most one line of transcript: the lines shown
    and the requests still in flight never outnumber the clips. *)
Theorem transcript_lines_never_outnumber_clips evs : forall w w',
  (length (transcription (react w)) + length (in_flight w)
   <= length (audioList (react w)))%nat ->
  run evs w = Some w' ->
  (length (transcription (react w')) + length (in_flight w')
   <= length (audioList (react w')))%nat.
Proof.
  induction evs as [|e evs IH]; intros w w' I R; simpl in R.
  - injection R as <-. exact I.
  - destruct (RealTimeTranscriptionVAD.step encodeWAV arrayBufferToBase64 e w)
      as [w1|] eqn:St; [|discriminate].
    apply (IH w1 w'); [|exact R]. apply (step_keeps_count e w w1 St I).
Qed.

End VADPage.

(** ** AudioTranscription: timers, posted audio, transcript, upload *)

Section SilenceEpisodes.
Import AudioTranscription AudioTranscriptionPage.
Context {M : Js.Math}.

Lemma stopRecording_keeps_timer s :
  silenceTimeout (stopRecording s) = silenceTimeout s.
Proof.
  destruct s as [rec tr er [[[] sa sq]|] st [c|] q]; reflexivity.
Qed.

Lemma settled_keeps_timer r s :
  silenceTimeout (processAudioChunk_settled r s) = silenceTimeout s.
Proof.
  unfold processAudioChunk_settled, processAudioChunk_failed.
  destruct r as [m|status [m|t]]; try destruct (negb (response_ok status));
    try destruct (Js.truthy t); rewrite ?stopRecording_keeps_timer; reflexivity.
Qed.

Lemma silent_frame_with_timer seen signal w :
  falsy_handle (silenceTimeout (app w)) = false ->
  silent signal = true ->
  checkAudioLevel seen signal w = w.
Proof.
  intros F S. unfold checkAudioLevel. destruct seen; [|reflexivity].
  unfold silent in S. cbn [negb]. cbv zeta. rewrite S, F. reflexivity.
Qed.

Lemma silence_step e w w' :
  falsy_handle (silenceTimeout (app w)) = false ->
  keeps_silence e = true ->
  step e w = Some w' ->
  silenceTimeout (app w') = silenceTimeout (app w)
  /\ next_timer w' = next_timer w
  /\ (length (in_flight w') + length (timers w')
      <= length (in_flight w) + length (timers w))%nat.
Proof.
  intros F K St.
  destruct e as [stream signal| |seen signal|h|data|m|k r]; simpl in St.
  - (* ClickStart *)
    injection St as <-. simpl in K. unfold startRecording.
    destruct stream as [|m]; [|simpl; auto].
    cbv zeta.
    rewrite silent_frame_with_timer; [simpl; auto|exact F|exact K].
  - injection St as <-. cbn [app with_app in_flight timers next_timer].
    rewrite stopRecording_keeps_timer. auto.
  - injection St as <-. simpl in K.
    rewrite (silent_frame_with_timer seen signal w F K). auto.
  - destruct (existsb (Nat.eqb h) (timers w)) eqn:E; [|discriminate].
    injection St as <-. unfold silence_elapsed. cbn [app in_flight timers next_timer].
    assert (L : (length (filter (fun t => negb (Nat.eqb t h)) (timers w))
                 < length (timers w))%nat).
    { clear -E. induction (timers w) as [|t l IH]; simpl in *; [discriminate|].
      pose proof (filter_length_le (fun t => negb (Nat.eqb t h)) l) as L.
      rewrite (Nat.eqb_sym t h). destruct (Nat.eqb h t); simpl in *; [lia|].
      apply IH in E. lia. }
    destruct (0 <? length (audioQueue (app w)))%nat; simpl;
      rewrite ?length_app; simpl; repeat split; lia.
  - injection St as <-. simpl. unfold ondataavailable.
    destruct (0 <? Blob_size data)%nat; auto.
  - injection St as <-. cbn [app with_app in_flight timers next_timer].
    unfold onerror. rewrite stopRecording_keeps_timer. auto.
  - destruct (k <? length (in_flight w))%nat eqn:Hk; [|discriminate].
    injection St as <-. cbn [app in_flight timers next_timer].
    rewrite settled_keeps_timer.
    repeat split; auto.
    apply Nat.ltb_lt in Hk.
    assert (L : forall (l : list FormData) n, (n < length l)%nat ->
                (length (remove_nth n l) < length l)%nat).
    { induction l as [|x l IH]; intros [|n] H; simpl in *; try lia.
      specialize (IH n). lia. }
    specialize (L _ _ Hk). lia.
Qed.

(** While the silence lasts no second timer is armed: the timer of the
    first silent frame stays the one the component holds, also after it
    has fired, and every segment that is posted uses up an armed timer. *)
Theorem one_timer_per_silence_episode evs : forall w w',
  falsy_handle (silenceTimeout (app w)) = false ->
  forallb keeps_silence evs = true ->
  run evs w = Some w' ->
  silenceTimeout (app w') = silenceTimeout (app w)
  /\ next_timer w' = next_timer w
  /\ (length (in_flight w') + length (timers w')
      <= length (in_flight w) + length (timers w))%nat.
Proof.
  induction evs as [|e evs IH]; intros w w' F K R; simpl in R.
  - injection R as <-. auto.
  - simpl in K. apply andb_prop in K. destruct K as [Ke K].
    destruct (step e w) as [w1|] eqn:St; [|discriminate].
    destruct (silence_step e w w1 F Ke St) as (T1 & N1 & L1).
    assert (F1 : falsy_handle (silenceTimeout (app w1)) = false)
      by (rewrite T1; exact F).
    destruct (IH w1 w' F1 K R) as (T & N & L).
    rewrite T, N, T1, N1. repeat split; lia.
Qed.

(** Speech within the silence window cancels the pending segment: the
    timer the component held can no longer fire, and nothing is posted. *)
Theorem speech_cancels_the_pending_segment signal w h :
  silenceTimeout (app w) = Some h ->
  h <> 0%nat ->
  silent signal = false ->
  silenceTimeout (app (checkAudioLevel true signal w)) = None
  /\ step (TimerFired h) (checkAudioLevel true signal w) = None
  /\ in_flight (checkAudioLevel true signal w) = in_flight w
  /\ audioQueue (app (checkAudioLevel true signal w)) = audioQueue (app w).
Proof.
  intros T H S. unfold checkAudioLevel. unfold silent in S.
  cbn [negb]. cbv zeta. rewrite S, T. simpl.
  apply Nat.eqb_neq in H. rewrite H. simpl.
  unfold clear_silence_timer. rewrite T. simpl.
  repeat split.
  assert (E : existsb (Nat.eqb h)
                (filter (fun t => negb (Nat.eqb t h)) (timers w)) = false).
  { induction (timers w) as [|t l IH]; simpl; [reflexivity|].
    destruct (Nat.eqb t h) eqn:Q; simpl; [exact IH|].
    rewrite Nat.eqb_sym, Q. exact IH. }
  rewrite E. reflexivity.
Qed.

End SilenceEpisodes.

Section PostedAudio.
Import AudioTranscription AudioTranscriptionPage.
Context {M : Js.Math}.

(** No blob in the queue and no file in flight is empty. *)
Definition no_empty_audio (w : World) : Prop :=
  Forall (fun b => (0 < length b)%nat) (audioQueue (app w))
  /\ Forall (fun f => (0 < length (form_file f))%nat) (in_flight w).

Lemma stopRecording_keeps_queue s :
  audioQueue (stopRecording s) = audioQueue s.
Proof.
  destruct s as [rec tr er [[[] sa sq]|] st [c|] q]; reflexivity.
Qed.

Lemma settled_keeps_queue r s :
  audioQueue (processAudioChunk_settled r s) = audioQueue s.
Proof.
  unfold processAudioChunk_settled, processAudioChunk_failed.
  destruct r as [m|status [m|t]]; try destruct (negb (response_ok status));
    try destruct (Js.truthy t); rewrite ?stopRecording_keeps_queue; reflexivity.
Qed.

Lemma checkAudioLevel_keeps_audio seen signal w :
  audioQueue (app (checkAudioLevel seen signal w)) = audioQueue (app w)
  /\ in_flight (checkAudioLevel seen signal w) = in_flight w.
Proof.
  unfold checkAudioLevel.
  repeat match goal with
         | |- context [if ?c then _ else _] => destruct c
         end; auto.
Qed.

Lemma startRecording_keeps_audio stream signal w :
  audioQueue (app (startRecording stream signal w)) = audioQueue (app w)
  /\ in_flight (startRecording stream signal w) = in_flight w.
Proof.
  unfold startRecording. destruct stream as [|m]; [|auto]. cbv zeta.
  match goal with
  | |- context [checkAudioLevel ?b signal ?w0] =>
      destruct (checkAudioLevel_keeps_audio b signal w0) as [Q F]
  end.
  cbn [MediaRecorder.start MediaRecorder.create MediaRecorder.is_inactive
       MediaRecorder.state MediaRecorder.stream_active andb].
  cbn [app with_app in_flight audioQueue set_isRecording set_mediaRecorder].
  rewrite Q, F. auto.
Qed.

Lemma concat_nonempty (q : list Blob) :
  Forall (fun b => (0 < length b)%nat) q ->
  (0 < length q)%nat -> (0 < length (new_Blob q))%nat.
Proof.
  intros H L. destruct H as [|b q Hb _]; simpl in *; [lia|].
  unfold new_Blob. simpl. rewrite length_app. lia.
Qed.

Lemma remove_nth_Forall {A : Type} (P : A -> Prop) (l : list A) : forall k,
  Forall P l -> Forall P (remove_nth k l).
Proof.
  induction l as [|x l IH]; intros [|k] H; simpl; auto;
    inversion H; subst; auto.
Qed.

Lemma no_empty_audio_step e w w' :
  no_empty_audio w -> step e w = Some w' -> no_empty_audio w'.
Proof.
  intros [Q F] St. unfold no_empty_audio.
  destruct e as [stream signal| |seen signal|h|data|m|k r]; simpl in St.
  - injection St as <-.
    destruct (startRecording_keeps_audio stream signal w) as [-> ->]. auto.
  - injection St as <-. cbn [app with_app in_flight].
    rewrite stopRecording_keeps_queue. auto.
  - injection St as <-.
    destruct (checkAudioLevel_keeps_audio seen signal w) as [-> ->]. auto.
  - destruct (existsb (Nat.eqb h) (timers w)); [|discriminate].
    injection St as <-. unfold silence_elapsed. cbn [app in_flight].
    destruct (0 <? length (audioQueue (app w)))%nat eqn:L; cbn [app in_flight];
      [|auto].
    split; [constructor|]. apply Forall_app. split; [exact F|].
    constructor; [|constructor]. cbn [form_file transcription_form].
    apply concat_nonempty; [exact Q|]. apply Nat.ltb_lt, L.
  - injection St as <-. cbn [app with_app in_flight]. unfold ondataavailable.
    destruct (0 <? Blob_size data)%nat eqn:L; [|auto].
    split; [|exact F]. cbn [audioQueue set_audioQueue].
    apply Forall_app. split; [exact Q|]. constructor; [|constructor].
    apply Nat.ltb_lt, L.
  - injection St as <-. cbn [app with_app in_flight]. unfold onerror.
    rewrite stopRecording_keeps_queue. auto.
  - destruct (k <? length (in_flight w))%nat; [|discriminate].
    injection St as <-. cbn [app in_flight].
    rewrite settled_keeps_queue. split; [exact Q|].
    apply remove_nth_Forall, F.
Qed.

(** AudioTranscription never posts an empty audio file. *)
Theorem no_empty_file_is_posted evs : forall w w',
  no_empty_audio w ->
  run evs w = Some w' ->
  Forall (fun f => (0 < length (form_file f))%nat) (in_flight w').
Proof.
  induction evs as [|e evs IH]; intros w w' I R; simpl in R.
  - injection R as <-. apply I.
  - destruct (step e w) as [w1|] eqn:St; [|discriminate].
    apply (IH w1 w' (no_empty_audio_step e w w1 I St) R).
Qed.

End PostedAudio.

Section Transcript.
Import AudioTranscription AudioTranscriptionPage.

Lemma string_append_assoc (a b c : string) :
  ((a ++ b) ++ c = a ++ (b ++ c))%string.
Proof. induction a as [|x a IH]; simpl; [reflexivity|]. rewrite IH. reflexivity. Qed.

Lemma string_append_empty (a : string) : (a ++ "" = a)%string.
Proof. induction a as [|x a IH]; simpl; [reflexivity|]. rewrite IH. reflexivity. Qed.

Lemma settled_not_failed r s :
  failed r = false ->
  processAudioChunk_settled r s
  = match transcribed r with
    | Some t => set_transcription (transcription s ++ " " ++ t)%string s
    | None => s
    end.
Proof.
  destruct r as [m|status [m|[|t]]]; simpl; intros F; try discriminate.
  - rewrite orb_true_r in F. discriminate.
  - apply orb_false_elim in F. destruct F as [F _]. rewrite F. reflexivity.
  - apply orb_false_elim in F. destruct F as [F _]. rewrite F.
    apply negb_false_iff in F. rewrite F. simpl.
    destruct (t =? "")%string; reflexivity.
Qed.

(** Replies that do not fail only add to the transcript: each
    transcription goes to its end, after a space, in the order in which
    the replies arrive; nothing else of the component changes. *)
Theorem transcript_grows_in_completion_order rs : forall s,
  forallb (fun r => negb (failed r)) rs = true ->
  fold_left (fun s r => processAudioChunk_settled r s) rs s
  = set_transcription (transcription s ++ spoken rs)%string s.
Proof.
  induction rs as [|r rs IH]; intros s H; simpl in *.
  - rewrite string_append_empty. destruct s; reflexivity.
  - apply andb_prop in H. destruct H as [Hr H]. apply negb_true_iff in Hr.
    rewrite (settled_not_failed r s Hr), (IH _ H).
    destruct (transcribed r) as [t|]; [|reflexivity].
    cbn [transcription set_transcription].
    rewrite !string_append_assoc. reflexivity.
Qed.

(** A second click on Stop changes nothing more, in either component. *)
Theorem stopRecording_twice_is_stopRecording_once sa st :
  stopRecording (stopRecording sa) = stopRecording sa
  /\ TranscriptionApp.stopRecording (TranscriptionApp.stopRecording st)
     = TranscriptionApp.stopRecording st.
Proof.
  split.
  - destruct sa as [rec tr er [[[] act sq]|] tm [[]|] q]; reflexivity.
  - destruct st as [rec stt tr ac [[[] act sq]|] ctx an da start chunks];
      reflexivity.
Qed.

(** A reply to an upload touches the transcript or the error and nothing
    else; a transcription replaces the transcript, where a reply to a
    recorded segment adds to it. *)
Theorem upload_replaces_the_transcript r p :
  isRecording (recording (handleFileUpload_settled r p)) = isRecording (recording p)
  /\ mediaRecorder (recording (handleFileUpload_settled r p))
     = mediaRecorder (recording p)
  /\ audioContext (recording (handleFileUpload_settled r p))
     = audioContext (recording p)
  /\ audioQueue (recording (handleFileUpload_settled r p))
     = audioQueue (recording p)
  /\ silenceTimeout (recording (handleFileUpload_settled r p))
     = silenceTimeout (recording p)
  /\ audioFile (handleFileUpload_settled r p) = audioFile p
  /\ isSupported (handleFileUpload_settled r p) = isSupported p
  /\ transcription (recording (handleFileUpload_settled r p))
     = match transcribed r with
       | Some t => t
       | None => transcription (recording p)
       end
  /\ transcription (processAudioChunk_settled r (recording p))
     = match transcribed r with
       | Some t => (transcription (recording p) ++ " " ++ t)%string
       | None => transcription (recording p)
       end.
Proof.
  assert (K : forall m, transcription (processAudioChunk_failed m (recording p))
                        = transcription (recording p)).
  { intros m. unfold processAudioChunk_failed.
    destruct (recording p) as [rec tr er [[[] sa sq]|] tm [c|] q]; reflexivity. }
  unfold handleFileUpload_settled, processAudioChunk_settled.
  destruct r as [m|status [m|[|t]]]; cbn -[processAudioChunk_failed];
    try destruct (response_ok status); cbn -[processAudioChunk_failed];
    rewrite ?K; repeat split;
    try reflexivity; destruct (t =? "")%string; reflexivity.
Qed.

(** A failed upload shows its error and leaves a running recording
    running, where a failed segment stops it. *)
Theorem failed_upload_keeps_recording r p :
  failed r = true ->
  (exists message,
     error (recording (handleFileUpload_settled r p))
     = Some ("Error processing audio file: " ++ message)%string)
  /\ isRecording (recording (handleFileUpload_settled r p))
     = isRecording (recording p)
  /\ mediaRecorder (recording (handleFileUpload_settled r p))
     = mediaRecorder (recording p)
  /\ isRecording (processAudioChunk_settled r (recording p)) = false.
Proof.
  intros F.
  assert (K : forall m, isRecording (processAudioChunk_failed m (recording p)) = false).
  { intros m. unfold processAudioChunk_failed.
    destruct (recording p) as [rec tr er [[[] sa sq]|] tm [c|] q]; reflexivity. }
  unfold handleFileUpload_settled, processAudioChunk_settled.
  destruct r as [m|status [m|t]]; cbn -[processAudioChunk_failed] in *.
  - rewrite K. repeat split. exists m. reflexivity.
  - destruct (response_ok status); cbn -[processAudioChunk_failed];
      rewrite K; repeat split; eexists; reflexivity.
  - rewrite orb_false_r in F. rewrite F. cbn -[processAudioChunk_failed].
    rewrite K. repeat split. eexists. reflexivity.
Qed.

Definition is_granted (a : Access) : bool :=
  match a with
  | Granted => true
  | Denied _ => false
  end.

(** The page counts as supported exactly when it is served over HTTPS or
    from localhost, the media devices are there, and the microphone is
    granted; an insecure origin is reported first, whatever the rest, and
    the recording state is only touched through the error. *)
Theorem support_needs_secure_origin_devices_and_microphone location devices access p :
  isSupported (checkBrowserSupport location devices access p)
  = ((protocol location =? "https:")%string
     || (hostname location =? "localhost")%string)
    && devices && is_granted access
  /\ error (recording (checkBrowserSupport location devices access p))
     = (if negb ((protocol location =? "https:")%string
                 || (hostname location =? "localhost")%string)
        then Some "Audio recording requires a secure connection (HTTPS) unless running on localhost"
        else if negb devices then Some "MediaDevices API not available"
        else if is_granted access then error (recording p)
        else Some "Microphone access denied or not available")
  /\ set_error (error (recording p))
       (recording (checkBrowserSupport location devices access p))
     = recording p.
Proof.
  unfold checkBrowserSupport.
  destruct (protocol location =? "https:")%string,
           (hostname location =? "localhost")%string, devices, access;
    destruct p as [[rec tr er mr tm ctx q] f sup]; repeat split.
Qed.

End Transcript.

(** ** The further properties on concrete traces *)

Section SilenceSegment.
Import TranscriptionApp.
Context {M : Js.Math}.

(** A segment that [detectSilence] emits carries the recorder's data and
    nothing else: the chunks that were in the accumulator are dropped. *)
Theorem silence_segment_is_the_recorder_data now signal w data :
  emits (app w) (detectSilence now signal (app w)) = true ->
  exists w',
    run [AnimationFrame now signal; RecorderStopped data] w = Some w'
    /\ in_flight w' = in_flight w ++ [transcription_form data]
    /\ currentChunks (app w') = [data]
    /\ audioChunks (app w') = audioChunks (app w) ++ [data].
Proof.
  destruct w as [[rec st tr ac mr ctx an da start chunks] fl].
  cbn [app in_flight run step]. unfold detectSilence.
  cbn [analyser dataArray].
  destruct an as [node|];
    [|intros E; rewrite emits_unchanged_recorder in E by reflexivity; discriminate].
  destruct da as [array|];
    [|intros E; rewrite emits_unchanged_recorder in E by reflexivity; discriminate].
  cbv zeta.
  destruct (decibels (AnalyserNode.getFloatTimeDomainData node signal array)
              <? VAD_THRESHOLD)%float;
    [|intros E; rewrite emits_unchanged_recorder in E by reflexivity; discriminate].
  cbn [silenceStart set_dataArray currentChunks mediaRecorder].
  destruct (Js.falsy_number start);
    [intros E; rewrite emits_unchanged_recorder in E by reflexivity; discriminate|].
  destruct ((elapsed_since now start >? SILENCE_DURATION)
            && (0 <? length chunks)%nat);
    [|intros E; rewrite emits_unchanged_recorder in E by reflexivity; discriminate].
  intros E. apply emits_stopped_recorder in E; [|reflexivity].
  destruct E as (r & R & I & Q). cbn [mediaRecorder] in R. subst mr.
  destruct r as [[] sa sq]; try discriminate; cbn in Q; subst sq;
    cbv -[List.app List.concat AnalyserNode.getFloatTimeDomainData];
    (eexists; split; [reflexivity|]); simpl;
    rewrite ?app_nil_r; repeat split.
Qed.

End SilenceSegment.

Section FurtherRuns.
Import Examples TranscriptionApp TranscriptionAppAudio.

Lemma saved_audio_witness :
  run first_session start_world = Some between_sessions
  /\ audioChunks (app between_sessions)
     = map form_file (posted first_session start_world)
  /\ saveAudio "2025-01-01T00:00:00.000Z" (app between_sessions)
     = match posted first_session start_world with
       | [] => None
       | _ :: _ =>
           Some ("transcription-2025-01-01T00:00:00.000Z.wav",
                 List.concat (map form_file (posted first_session start_world)))
       end.
Proof.
  assert (R : run first_session start_world = Some between_sessions)
    by (vm_compute; reflexivity).
  split; [exact R|].
  exact (saved_audio_is_the_posted_audio first_session between_sessions
           "2025-01-01T00:00:00.000Z" R).
Defined.

Definition two_sessions : list (Z * list float * Blob * Reply) :=
  [ (0, silence_frame, blob1, hello); (500, loud_frame, blob2, unreachable) ].

Lemma manual_sessions_witness :
  in_flight start_world = []
  /\ isRecording (app start_world) = false
  /\ exists w',
       run (flat_map manual_session two_sessions) start_world = Some w'
       /\ currentChunks (app w')
          = currentChunks (app start_world) ++ map session_data two_sessions
       /\ audioChunks (app w')
          = audioChunks (app start_world)
              ++ growing_blobs (currentChunks (app start_world))
                   (map session_data two_sessions).
Proof.
  split; [reflexivity|]. split; [reflexivity|].
  exact (manual_sessions_post_all_earlier_audio two_sessions start_world
           eq_refl eq_refl).
Defined.

Lemma status_says_recording_witness :
  capturing (app just_started) = true
  /\ in_flight just_started = []
  /\ exists w',
       run [ClickStop; RecorderStopped blob1; Settled 0 hello] just_started = Some w'
       /\ status (app w') = recording
       /\ isRecording (app w') = false
       /\ capturing (app w') = false.
Proof.
  assert (C : capturing (app just_started) = true) by (vm_compute; reflexivity).
  assert (F : in_flight just_started = []) by (vm_compute; reflexivity).
  split; [exact C|]. split; [exact F|].
  exact (status_says_recording_after_a_manual_stop just_started blob1 hello C F).
Defined.

Lemma silence_segment_witness :
  emits (app in_silence) (detectSilence 2001 silence_frame (app in_silence)) = true
  /\ exists w',
       run [AnimationFrame 2001 silence_frame; RecorderStopped blob2] in_silence
       = Some w'
       /\ in_flight w' = in_flight in_silence ++ [transcription_form blob2]
       /\ currentChunks (app w') = [blob2]
       /\ audioChunks (app w') = audioChunks (app in_silence) ++ [blob2].
Proof.
  assert (E : emits (app in_silence)
                (detectSilence 2001 silence_frame (app in_silence)) = true)
    by (vm_compute; reflexivity).
  split; [exact E|].
  exact (silence_segment_is_the_recorder_data 2001 silence_frame in_silence
           blob2 E).
Defined.

End FurtherRuns.

Section FurtherVADRuns.
Import RealTimeTranscriptionVAD VADExamples VADView.

Lemma captions_witness :
  run0 scenario_C start_world = Some after_scenario_C
  /\ clip_captions (react after_scenario_C)
     = rev (combine (map (audioURL_of sample_encodeWAV sample_base64)
                       (clips scenario_C))
              (seq 1 (length (clips scenario_C)))).
Proof.
  assert (R : run0 scenario_C start_world = Some after_scenario_C) by reflexivity.
  split; [exact R|].
  exact (clips_are_captioned_with_their_capture_number
           sample_encodeWAV sample_base64 scenario_C after_scenario_C R).
Defined.

Lemma transcript_lines_witness :
  (length (transcription (react start_world)) + length (in_flight start_world)
   <= length (audioList (react start_world)))%nat
  /\ run0 scenario_C start_world = Some after_scenario_C
  /\ (length (transcription (react after_scenario_C))
      + length (in_flight after_scenario_C)
      <= length (audioList (react after_scenario_C)))%nat.
Proof.
  assert (I : (length (transcription (react start_world))
               + length (in_flight start_world)
               <= length (audioList (react start_world)))%nat) by (simpl; lia).
  assert (R : run0 scenario_C start_world = Some after_scenario_C) by reflexivity.
  split; [exact I|]. split; [exact R|].
  exact (transcript_lines_never_outnumber_clips sample_encodeWAV sample_base64
           scenario_C start_world after_scenario_C I R).
Defined.

End FurtherVADRuns.

Section FurtherAudioRuns.
Import Examples AudioTranscription AudioTranscriptionPage.

Definition timer_armed : World :=
  Eval vm_compute in
    world_after run
      [ ClickStart Granted loud_frame; DataAvailable blob1;
        AnimationFrame true silence_frame ]
      start_world.

Definition silence_goes_on : list Event :=
  [ AnimationFrame true silence_frame; DataAvailable blob2;
    AnimationFrame true silence_frame ].

Definition after_long_silence : World :=
  Eval vm_compute in world_after run silence_goes_on segment_posted.

Lemma one_timer_witness :
  falsy_handle (silenceTimeout (app segment_posted)) = false
  /\ forallb keeps_silence silence_goes_on = true
  /\ run silence_goes_on segment_posted = Some after_long_silence
  /\ silenceTimeout (app after_long_silence) = silenceTimeout (app segment_posted)
  /\ next_timer after_long_silence = next_timer segment_posted
  /\ (length (in_flight after_long_silence) + length (timers after_long_silence)
      <= length (in_flight segment_posted) + length (timers segment_posted))%nat.
Proof.
  assert (F : falsy_handle (silenceTimeout (app segment_posted)) = false)
    by (vm_compute; reflexivity).
  assert (K : forallb keeps_silence silence_goes_on = true)
    by (vm_compute; reflexivity).
  assert (R : run silence_goes_on segment_posted = Some after_long_silence)
    by (vm_compute; reflexivity).
  split; [exact F|]. split; [exact K|]. split; [exact R|].
  exact (one_timer_per_silence_episode silence_goes_on segment_posted
           after_long_silence F K R).
Defined.

Lemma speech_cancels_witness :
  silenceTimeout (app timer_armed) = Some 1%nat
  /\ 1%nat <> 0%nat
  /\ silent loud_frame = false
  /\ silenceTimeout (app (checkAudioLevel true loud_frame timer_armed)) = None
  /\ step (TimerFired 1) (checkAudioLevel true loud_frame timer_armed) = None
  /\ in_flight (checkAudioLevel true loud_frame timer_armed) = in_flight timer_armed
  /\ audioQueue (app (checkAudioLevel true loud_frame timer_armed))
     = audioQueue (app timer_armed).
Proof.
  assert (T : silenceTimeout (app timer_armed) = Some 1%nat)
    by (vm_compute; reflexivity).
  assert (H : 1%nat <> 0%nat) by discriminate.
  assert (S : silent loud_frame = false) by (vm_compute; reflexivity).
  split; [exact T|]. split; [exact H|]. split; [exact S|].
  exact (speech_cancels_the_pending_segment loud_frame timer_armed 1 T H S).
Defined.

Lemma no_empty_file_witness :
  no_empty_audio start_world
  /\ run one_segment_posted start_world = Some segment_posted
  /\ Forall (fun f => (0 < length (form_file f))%nat) (in_flight segment_posted).
Proof.
  assert (I : no_empty_audio start_world) by (split; constructor).
  assert (R : run one_segment_posted start_world = Some segment_posted)
    by (vm_compute; reflexivity).
  split; [exact I|]. split; [exact R|].
  exact (no_empty_file_is_posted one_segment_posted start_world segment_posted I R).
Defined.

Definition three_replies : list Reply :=
  [ hello; Response 200 (Json (Js.str "")); Response 201 (Json (Js.str "world")) ].

Lemma transcript_grows_witness :
  forallb (fun r => negb (failed r)) three_replies = true
  /\ fold_left (fun s r => processAudioChunk_settled r s) three_replies initial
     = set_transcription (transcription initial ++ spoken three_replies)%string
         initial.
Proof.
  split; [reflexivity|].
  exact (transcript_grows_in_completion_order three_replies initial eq_refl).
Defined.

Lemma failed_upload_witness :
  failed unreachable = true
  /\ (exists message,
        error (recording (handleFileUpload_settled unreachable initial_page))
        = Some ("Error processing audio file: " ++ message)%string)
  /\ isRecording (recording (handleFileUpload_settled unreachable initial_page))
     = isRecording (recording initial_page)
  /\ mediaRecorder (recording (handleFileUpload_settled unreachable initial_page))
     = mediaRecorder (recording initial_page)
  /\ isRecording (processAudioChunk_settled unreachable (recording initial_page))
     = false.
Proof.
  split; [reflexivity|].
  exact (failed_upload_keeps_recording unreachable initial_page eq_refl).
Defined.

End FurtherAudioRuns.
